(** * pybaseball/team_batting.py: Baseball-Reference batting scrapers

    A shallow embedding of [team_batting_bref] and [season_batting_bref].

    - Python values that end up in a table cell or a heading ([None], [int],
      [str]) are the type [value]; Python ints are [Z].
    - Strings are Rocq strings; a character stands for a code point below 256.
    - A parsed document is a tree of [node]s; the BeautifulSoup queries the
      source uses ([find_all], [find], [get], [text]) are functions on it.
    - [print] and raised exceptions are the effects of the two functions: a
      computation yields the lines printed and either a value or the
      exception raised ([M]).
    - [session.get] followed by the BeautifulSoup parse is the section
      variable [get_soup], from the requested URL to the parsed document.
    - [pd.DataFrame(data=..., columns=...)] and [dropna] follow pandas: short
      rows are padded with [None] up to the widest row, a width different
      from the number of headings raises [ValueError], [dropna] keeps the
      rows without a missing cell.  A cell stands for its value, not for
      its dtype: pandas stores a numeric column that received a padded
      [None] as float64, which holds the integers up to 2^53 in magnitude
      exactly, so what is stated about the season cells of a team table is
      stated for seasons in that range ([Pandas.float64_exact]).
    - The [cache.df_cache] decorator is the identity on results (it only
      stores them), so the functions modelled are the decorated bodies. *)

From Stdlib Require Import ZArith List String Ascii Bool Lia Sorted DecimalString.
Import ListNotations.
Open Scope string_scope.
Open Scope list_scope.
Set Warnings "-register-all".

(** ** Python strings *)

Module Str.

(** [sub in s] *)
Fixpoint contains (sub s : string) : bool :=
  if String.prefix sub s then true
  else match s with
       | EmptyString => false
       | String _ s' => contains sub s'
       end.

(** [s.replace(c, '')] for a one-character [c] *)
Fixpoint remove (c : ascii) (s : string) : string :=
  match s with
  | EmptyString => EmptyString
  | String a s' => if Ascii.eqb a c then remove c s' else String a (remove c s')
  end.

(** does the character [c] occur in [s] *)
Fixpoint occurs (c : ascii) (s : string) : bool :=
  match s with
  | EmptyString => false
  | String a s' => Ascii.eqb a c || occurs c s'
  end.

(** [str.isspace] on one character (code points below 256) *)
Definition isspace (a : ascii) : bool :=
  let n := nat_of_ascii a in
  ((9 <=? n)%nat && (n <=? 13)%nat) || ((28 <=? n)%nat && (n <=? 32)%nat)
  || (n =? 133)%nat || (n =? 160)%nat.

Fixpoint lstrip (s : string) : string :=
  match s with
  | EmptyString => EmptyString
  | String a s' => if isspace a then lstrip s' else s
  end.

Fixpoint rstrip (s : string) : string :=
  match s with
  | EmptyString => EmptyString
  | String a s' =>
      match rstrip s' with
      | EmptyString => if isspace a then EmptyString else String a EmptyString
      | r => String a r
      end
  end.

(** [s.strip()] *)
Definition strip (s : string) : string := rstrip (lstrip s).

(** [s.split(sep)] for a one-character separator *)
Fixpoint split (sep : ascii) (s : string) : list string :=
  match s with
  | EmptyString => [EmptyString]
  | String a s' =>
      if Ascii.eqb a sep then EmptyString :: split sep s'
      else match split sep s' with
           | [] => [String a EmptyString]
           | w :: ws => String a w :: ws
           end
  end.

(** [str(n)] for an int *)
Definition of_int (n : Z) : string := NilZero.string_of_int (Z.to_int n).

End Str.

(** ** Python lists *)

Module PyList.
Section Ops.
Context {A : Type}.

(** [l.insert(i, x)] for [i >= 0]: past the end it appends *)
Definition insert (i : nat) (x : A) (l : list A) : list A :=
  firstn i l ++ x :: skipn i l.

(** [l[a:b]] for [0 <= a <= b] *)
Definition slice (a b : nat) (l : list A) : list A :=
  firstn (b - a) (skipn a l).

(** [l[a:]] *)
Definition slice_from (a : nat) (l : list A) : list A := skipn a l.
End Ops.

(** [range(a, b)] *)
Definition range (a b : Z) : list Z :=
  map (fun i => (a + Z.of_nat i)%Z) (seq 0 (Z.to_nat (b - a))).
End PyList.

(** ** Cell values, exceptions and the effect monad *)

Inductive value : Type :=
| VNone
| VInt (n : Z)
| VStr (s : string).

Inductive exc_class : Type :=
| ValueError | IndexError | AssertionError | AttributeError.

Definition class_name (c : exc_class) : string :=
  match c with
  | ValueError => "ValueError"
  | IndexError => "IndexError"
  | AssertionError => "AssertionError"
  | AttributeError => "AttributeError"
  end.

Record exception : Type := Exc { exc_type : exc_class; exc_msg : string }.

Inductive outcome (A : Type) : Type :=
| Return (a : A)
| Raise (e : exception).
Arguments Return {A} a.
Arguments Raise {A} e.

(** The lines printed, in order, and how the computation ended. *)
Definition M (A : Type) : Type := (list string * outcome A)%type.

Definition ret {A} (a : A) : M A := ([], Return a).
Definition raise {A} (e : exception) : M A := ([], Raise e).
Definition print (line : string) : M unit := ([line], Return tt).

Definition bind {A B} (m : M A) (k : A -> M B) : M B :=
  match m with
  | (out, Return a) => let (out', r) := k a in (out ++ out', r)
  | (out, Raise e) => (out, Raise e)
  end.

Notation "x <- m ;; k" := (bind m (fun x => k))
  (at level 61, m at next level, right associativity).
Notation "m ;; k" := (bind m (fun _ => k))
  (at level 61, right associativity).

(** [for x in xs: st = body(st, x)], stopping at the first exception *)
Fixpoint for_each {S X} (xs : list X) (body : S -> X -> M S) (st : S) : M S :=
  match xs with
  | [] => ret st
  | x :: xs' => st' <- body st x ;; for_each xs' body st'
  end.

(** [l[i]] *)
Definition getitem {A} (l : list A) (i : nat) : M A :=
  match nth_error l i with
  | Some a => ret a
  | None => raise (Exc IndexError "list index out of range")
  end.

(** attribute access [o.attr] on a value that may be [None] *)
Definition getattr {A} (o : option A) (attr : string) : M A :=
  match o with
  | Some a => ret a
  | None =>
      raise (Exc AttributeError
               ("'NoneType' object has no attribute '" ++ attr ++ "'")%string)
  end.

(** [assert o is not None] *)
Definition assert_not_none {A} (o : option A) : M A :=
  match o with
  | Some a => ret a
  | None => raise (Exc AssertionError "")
  end.

(** ** Parsed documents (BeautifulSoup) *)

Inductive node : Type :=
| NavigableString (s : string)
| Tag (name : string) (attrs : list (string * string)) (contents : list node).

Module Soup.

(** the nodes below [n], in document order *)
Fixpoint descendants (n : node) : list node :=
  match n with
  | NavigableString _ => []
  | Tag _ _ cs =>
      (fix below (l : list node) : list node :=
         match l with
         | [] => []
         | c :: l' => c :: descendants c ++ below l'
         end) cs
  end.

(** [n.text] *)
Fixpoint text (n : node) : string :=
  match n with
  | NavigableString s => s
  | Tag _ _ cs =>
      (fix join (l : list node) : string :=
         match l with
         | [] => EmptyString
         | c :: l' => (text c ++ join l')%string
         end) cs
  end.

(** [tag.get(key)] *)
Fixpoint lookup (key : string) (attrs : list (string * string)) : option string :=
  match attrs with
  | [] => None
  | (k, v) :: rest => if String.eqb k key then Some v else lookup key rest
  end.

Definition get (key : string) (n : node) : option string :=
  match n with
  | NavigableString _ => None
  | Tag _ attrs _ => lookup key attrs
  end.

(** One attribute filter: the value wanted is the attribute's value; for
    [class], whose value is a list of tokens, it is one of the tokens or
    the tokens joined by one space (kept here as the attribute's string). *)
Definition attr_matches (have : list (string * string)) (want : string * string) : bool :=
  match lookup (fst want) have with
  | None => false
  | Some v =>
      String.eqb v (snd want)
      || (String.eqb (fst want) "class"
          && existsb (String.eqb (snd want)) (Str.split " " v))
  end.

Definition matches (name : string) (want : list (string * string)) (n : node) : bool :=
  match n with
  | NavigableString _ => false
  | Tag nm attrs _ => String.eqb nm name && forallb (attr_matches attrs) want
  end.

(** [n.find_all(name, attrs)] *)
Definition find_all (name : string) (want : list (string * string)) (n : node) : list node :=
  filter (matches name want) (descendants n).

(** [n.find(name, attrs)] *)
Definition find (name : string) (want : list (string * string)) (n : node) : option node :=
  hd_error (find_all name want n).

End Soup.

(** ** pandas *)

Record DataFrame : Type := { columns : list value; rows : list (list value) }.

Module Pandas.

Definition width (data : list (list value)) : nat :=
  fold_right (fun row w => Nat.max (List.length row) w) 0 data.

Definition pad (w : nat) (row : list value) : list value :=
  row ++ repeat VNone (w - List.length row).

Definition of_nat (n : nat) : string := Str.of_int (Z.of_nat n).

(** [pd.DataFrame(data=data, columns=cols)] for a list of lists.  The cells
    are the values handed over; the dtype pandas infers for a column is not
    part of the frame (see [float64_exact]). *)
Definition new (data : list (list value)) (cols : list value) : M DataFrame :=
  match data with
  | [] => ret {| columns := cols; rows := [] |}
  | _ =>
      let w := width data in
      if Nat.eqb (List.length cols) w
      then ret {| columns := cols; rows := map (pad w) data |}
      else raise (Exc ValueError
                    (of_nat (List.length cols) ++ " columns passed, passed data had "
                     ++ of_nat w ++ " columns")%string)
  end.

(** The integers a float64 column holds unchanged.  A column of ints that
    also received a padded [None] becomes float64, and an int beyond this
    range comes back rounded; within it, the cell [VInt n] is the value the
    frame holds. *)
Definition float64_exact (n : Z) : Prop := (- 2 ^ 53 <= n <= 2 ^ 53)%Z.

Definition isna (v : value) : bool :=
  match v with VNone => true | _ => false end.

(** [df.dropna()]: a new frame without the rows that have a missing cell *)
Definition dropna (df : DataFrame) : DataFrame :=
  {| columns := columns df;
     rows := filter (fun row => negb (existsb isna row)) (rows df) |}.

End Pandas.

(** ** The two scrapers *)

(** The loop variables [raw_data] and [headings]. *)
Record scrape_state : Type :=
  { raw_data : list (list value); headings : option (list value) }.

Definition of_option (o : option string) : value :=
  match o with
  | Some s => VStr s
  | None => VNone
  end.

Section Scrapers.

(** [BeautifulSoup(session.get(url).content, 'html.parser')] *)
Variable get_soup : string -> node.

(** *** team_batting_bref *)

(** The cell filter of line 53. *)
Definition keep_col (col : string) : bool :=
  negb (Str.contains "Totals" col)
  && negb (Str.contains "NL teams" col)
  && negb (Str.contains "AL teams" col).

(** Lines 50-55: what one [tr] appends to [raw_data]. *)
Definition team_row (season : Z) (row : node) : list value :=
  let cols := Soup.find_all "td" [] row in
  let cols := map (fun ele => Str.strip (Soup.text ele)) cols in
  let cols := map (fun col => Str.remove "#" (Str.remove "*" col)) cols in
  let cols := filter keep_col cols in
  let cols := PyList.insert 2 (VInt season) (map VStr cols) in
  cols.

(** Lines 38-55: the body of the season loop. *)
Definition team_step (team url : string) (st : scrape_state) (season : Z)
  : M scrape_state :=
  print ("Getting Batting Data: " ++ Str.of_int season ++ " " ++ team)%string ;;
  let stats_url := (url ++ "/" ++ Str.of_int season ++ ".shtml")%string in
  let soup := get_soup stats_url in
  table <- getitem (Soup.find_all "table" [("class", "sortable stats_table")] soup) 0 ;;
  let headings :=
    match headings st with
    | None =>
        Some (map (fun row => VStr (Str.strip (Soup.text row)))
                (PyList.slice 1 28 (Soup.find_all "th" [] table)))
    | Some h => Some h
    end in
  let rows := Soup.find_all "tr" [] table in
  let raw_data :=
    fold_left (fun raw row => raw ++ [team_row season row]) rows (raw_data st) in
  ret {| raw_data := raw_data; headings := headings |}.

(** Lines 35-55: the season loop from its initial state. *)
Definition team_loop (team url : string) (start_season end_season : Z)
  : M scrape_state :=
  for_each (PyList.range start_season (end_season + 1))
    (team_step team url) {| raw_data := []; headings := None |}.

Definition team_batting_bref (team : string) (start_season end_season : option Z)
  : M DataFrame :=
  match start_season with
  | None =>
      raise (Exc ValueError
               "You need to provide at least one season to collect data for. Try team_batting_bref(season) or team_batting_bref(start_season, end_season).")
  | Some start_season =>
      let end_season :=
        match end_season with
        | None => start_season
        | Some e => e
        end in
      let url := ("https://www.baseball-reference.com/teams/" ++ team)%string in
      st <- team_loop team url start_season end_season ;;
      headings <- assert_not_none (headings st) ;;
      let headings := PyList.insert 2 (VStr "Year") headings in
      data <- Pandas.new (raw_data st) headings ;;
      let data := Pandas.dropna data in
      ret data
  end.

(** *** season_batting_bref *)

(** Lines 101-115: one [tr] of the table body; [ret raw] is [continue]. *)
Definition season_row (season : Z) (raw : list (list value)) (row : node)
  : M (list (list value)) :=
  let cols := [] in
  th <- getattr (Soup.find "th" [("data-stat", "team_name")] row) "text" ;;
  let team_name := Str.strip (Soup.text th) in
  if String.eqb team_name "League Average" then ret raw
  else
    a_tag <- getattr (Soup.find "a" [] th) "get" ;;
    href <- getattr (Soup.get "href" a_tag) "split" ;;
    team_abbrev <- getitem (Str.split "/" href) 2 ;;
    let cols := cols ++ [VInt season; VStr team_abbrev; VStr team_name] in
    let cols :=
      cols ++ map (fun td => VStr (Str.strip (Soup.text td)))
                  (Soup.find_all "td" [] row) in
    ret (raw ++ [cols]).

(** Lines 86-115: the body of the season loop. *)
Definition season_step (st : scrape_state) (season : Z) : M scrape_state :=
  print ("Getting per-team batting data: " ++ Str.of_int season)%string ;;
  let season_url :=
    ("https://www.baseball-reference.com/leagues/majors/" ++ Str.of_int season
     ++ "-standard-batting.shtml")%string in
  let soup := get_soup season_url in
  match Soup.find "table" [("id", "teams_standard_batting")] soup with
  | None =>
      print ("Table not found for " ++ Str.of_int season)%string ;;
      ret st
  | Some table =>
      headings <-
        match headings st with
        | None =>
            thead <- getattr (Soup.find "thead" [] table) "find_all" ;;
            ret (Some (map (fun th => of_option (Soup.get "data-stat" th))
                         (Soup.find_all "th" [] thead)))
        | Some h => ret (Some h)
        end ;;
      tbody <- getattr (Soup.find "tbody" [] table) "find_all" ;;
      let rows := Soup.find_all "tr" [] tbody in
      raw_data <- for_each rows (season_row season) (raw_data st) ;;
      ret {| raw_data := raw_data; headings := headings |}
  end.

(** Lines 82-115: the season loop from its initial state. *)
Definition season_loop (start_season end_season : Z) : M scrape_state :=
  for_each (PyList.range start_season (end_season + 1))
    season_step {| raw_data := []; headings := None |}.

Definition season_batting_bref (start_season end_season : option Z) : M DataFrame :=
  match start_season with
  | None =>
      raise (Exc ValueError
               "You need to provide at least one season to collect data for. Try season_batting_bref(season) or season_batting_bref(start_season, end_season).")
  | Some start_season =>
      let end_season :=
        match end_season with
        | None => start_season
        | Some e => e
        end in
      st <- season_loop start_season end_season ;;
      headings <- assert_not_none (headings st) ;;
      let headings :=
        [VStr "season"; VStr "team_abbrev"; VStr "team_name"]
          ++ PyList.slice_from 1 headings in
      data <- Pandas.new (raw_data st) headings ;;
      let _ := Pandas.dropna data in
      ret data
  end.

End Scrapers.

(** ** Sample documents *)

Module Sample.

Definition txt (tag s : string) : node := Tag tag [] [NavigableString s].
Definition th (s : string) : node := txt "th" s.
Definition td (s : string) : node := txt "td" s.
Definition tr (cells : list node) : node := Tag "tr" [] cells.

Definition page (body : list node) : node :=
  Tag "[document]" [] [Tag "html" [] [Tag "body" [] body]].

(** A team page: a header row, two players, the totals and a rank row. *)
Definition team_table (name1 name2 : string) : node :=
  Tag "table" [("class", "sortable stats_table"); ("id", "team_batting")]
    [ Tag "thead" []
        [tr [th "Rk"; th "Pos"; th " Name "; th "Age"; th "G"]];
      Tag "tbody" []
        [tr [td "C"; td name1; td "28"; td "111"];
         tr [td "1B"; td name2; td "30"; td " 150 "]];
      Tag "tfoot" []
        [tr [td ""; td "Team Totals"; td "29.1"; td "162"];
         tr [td ""; td "Rank in 15 AL teams"; td ""; td ""]] ].

Definition team_page (name1 name2 : string) : node :=
  page [Tag "div" [] [team_table name1 name2]].

Definition no_table_page : node :=
  page [Tag "div" [] [NavigableString "Page Not Found (404 error)"]].

Definition team_site (url : string) : node :=
  if String.eqb url "https://www.baseball-reference.com/teams/NYY/2019.shtml"
  then team_page "Gary Sanchez" "Luke Voit"
  else if String.eqb url "https://www.baseball-reference.com/teams/NYY/2020.shtml"
  then team_page "Kyle Higashioka*" "Mike Ford#"
  else no_table_page.

(** A league page: three header cells, two clubs and the league average. *)
Definition club (abbrev name g r : string) : node :=
  tr [ Tag "th" [("data-stat", "team_name")]
         [Tag "a" [("href", "/teams/" ++ abbrev ++ "/2020.shtml")%string]
            [NavigableString name]];
       Tag "td" [("data-stat", "G")] [NavigableString g];
       Tag "td" [("data-stat", "R")] [NavigableString r] ].

Definition league_table (rows foot : list node) : node :=
  Tag "table" [("class", "sortable stats_table"); ("id", "teams_standard_batting")]
    [ Tag "thead" []
        [tr [ Tag "th" [("data-stat", "team_name")] [NavigableString "Tm"];
              Tag "th" [("data-stat", "G")] [NavigableString "G"];
              Tag "th" [("data-stat", "R")] [NavigableString "R"] ]];
      Tag "tbody" [] rows;
      Tag "tfoot" [] foot ].

Definition league_average : node :=
  tr [ Tag "th" [("data-stat", "team_name")] [NavigableString "League Average"];
       td "60"; td "278" ].

Definition league_page : node :=
  page [league_table
          [club "ARI" "Arizona Diamondbacks" "60" " 269 ";
           club "NYY" "New York Yankees" "60" "315";
           league_average]
          [tr [ Tag "th" [("data-stat", "team_name")] [NavigableString ""];
                td "1796"; td "8344" ]]].

Definition league_site (url : string) : node :=
  if String.eqb url
       "https://www.baseball-reference.com/leagues/majors/2020-standard-batting.shtml"
  then league_page
  else no_table_page.

(** A league page whose cells carry decoration characters and whose body
    has a totals row. *)
Definition marked_league_page : node :=
  page [league_table
          [club "BOS" "Boston Red Sox*" "162" "829#";
           club "MLB" "Team Totals" "4858" "22010"]
          []].

Definition marked_league_site (_ : string) : node := marked_league_page.

(** A team page with a player row named like the league average row. *)
Definition average_team_site (_ : string) : node :=
  team_page "League Average" "Luke Voit".

(** A team page whose table has one header cell and one row without cells. *)
Definition tiny_team_site (_ : string) : node :=
  page [Tag "table" [("class", "sortable stats_table")]
          [tr [th "Rk"]; tr []]].

(** A team page with a row of more cells than the table has headings. *)
Definition wide_team_site (_ : string) : node :=
  page [Tag "table" [("class", "sortable stats_table")]
          [tr [th "Rk"; th "Pos"; th "Name"];
           tr [td "C"; td "Gary Sanchez"; td "28"; td "111"]]].

(** A league page with a row of more cells than the table has headings. *)
Definition wide_league_site (_ : string) : node :=
  page [league_table
          [tr [ Tag "th" [("data-stat", "team_name")]
                  [Tag "a" [("href", "/teams/ARI/2020.shtml")]
                     [NavigableString "Arizona Diamondbacks"]];
                td "60"; td "269"; td "5.1" ]]
          []].



(** A team page whose totals row has one cell more than the player rows. *)
Definition shifted_team_site (_ : string) : node :=
  page [Tag "table" [("class", "sortable stats_table")]
          [tr [th "Rk"; th "Pos"; th "Name"; th "Age"; th "G"];
           tr [td "C"; td "Gary Sanchez"; td "28"; td "111"];
           tr [td ""; td "Team Totals"; td "29.1"; td "162"; td "6245"]]].

(** A team page whose only row is the header row. *)
Definition header_only_team_site (_ : string) : node :=
  page [Tag "table" [("class", "sortable stats_table")]
          [tr [th "Rk"; th "Pos"; th "Name"]]].

(** A league page whose only row has one cell for two headings. *)
Definition narrow_league_site (_ : string) : node :=
  page [league_table
          [tr [ Tag "th" [("data-stat", "team_name")]
                  [Tag "a" [("href", "/teams/ARI/2020.shtml")]
                     [NavigableString "Arizona Diamondbacks"]];
                td "60" ]]
          []].

(** A league page whose club link is an absolute URL. *)
Definition absolute_link_site (_ : string) : node :=
  page [league_table
          [tr [ Tag "th" [("data-stat", "team_name")]
                  [Tag "a"
                     [("href",
                       "https://www.baseball-reference.com/teams/ARI/2020.shtml")]
                     [NavigableString "Arizona Diamondbacks"]];
                td "60"; td "269" ]]
          []].

End Sample.

(** ** Vocabulary of the statements *)

Section Vocabulary.

Variable get_soup : string -> node.

(** The page of one team season and the tables the locator sees on it. *)
Definition team_url (team : string) : string :=
  ("https://www.baseball-reference.com/teams/" ++ team)%string.

Definition team_tables (url : string) (season : Z) : list node :=
  Soup.find_all "table" [("class", "sortable stats_table")]
    (get_soup (url ++ "/" ++ Str.of_int season ++ ".shtml")%string).

(** The rows one season of a team contributes to [raw_data]. *)
Definition team_rows (url : string) (season : Z) : list (list value) :=
  match nth_error (team_tables url season) 0 with
  | Some table => map (team_row season) (Soup.find_all "tr" [] table)
  | None => []
  end.

(** The cells of a team row before the season is inserted. *)
Definition team_cells (row : node) : list string :=
  filter keep_col
    (map (fun col => Str.remove "#" (Str.remove "*" col))
       (map (fun ele => Str.strip (Soup.text ele)) (Soup.find_all "td" [] row))).

(** The raw headings of a team table (before ["Year"] is inserted). *)
Definition team_headings (table : node) : list value :=
  map (fun row => VStr (Str.strip (Soup.text row)))
    (PyList.slice 1 28 (Soup.find_all "th" [] table)).

(** The heading set a loop over [seasons] ends with. *)
Definition team_first_headings (url : string) (seasons : list Z)
  : option (list value) :=
  match seasons with
  | [] => None
  | s :: _ => option_map team_headings (nth_error (team_tables url s) 0)
  end.

Definition team_line (team : string) (season : Z) : string :=
  ("Getting Batting Data: " ++ Str.of_int season ++ " " ++ team)%string.

(** The league page of a season and its table, when it has one. *)
Definition league_url (season : Z) : string :=
  ("https://www.baseball-reference.com/leagues/majors/" ++ Str.of_int season
   ++ "-standard-batting.shtml")%string.

Definition league_table (season : Z) : option node :=
  Soup.find "table" [("id", "teams_standard_batting")] (get_soup (league_url season)).

(** The heading cells of a league table, as read from its head. *)
Definition league_headings (thead : node) : list value :=
  map (fun th => of_option (Soup.get "data-stat" th)) (Soup.find_all "th" [] thead).

(** The heading set a loop over [seasons] ends with: the first table found
    decides. *)
Fixpoint league_first_headings (seasons : list Z) : option (list value) :=
  match seasons with
  | [] => None
  | s :: rest =>
      match league_table s with
      | None => league_first_headings rest
      | Some table => option_map league_headings (Soup.find "thead" [] table)
      end
  end.

(** The body rows of a season's league table. *)
Definition league_body_rows (season : Z) : list node :=
  match league_table season with
  | Some table =>
      match Soup.find "tbody" [] table with
      | Some tbody => Soup.find_all "tr" [] tbody
      | None => []
      end
  | None => []
  end.

Definition league_lines (season : Z) : list string :=
  [("Getting per-team batting data: " ++ Str.of_int season)%string;
   ("Table not found for " ++ Str.of_int season)%string].

End Vocabulary.

(** The effective last season of a call. *)
Definition last_season (start_season : Z) (end_season : option Z) : Z :=
  match end_season with
  | None => start_season
  | Some e => e
  end.



(** Where [insert(2, ...)] puts its element in a list that ends with [n]
    elements more than before, and the column it is in a team frame. *)
Definition year_index (df : DataFrame) : nat :=
  Nat.min 2 (List.length (columns df) - 1).



(** The texts of all the cells of a team row, cleaned but not filtered: cell
    [k] is what was rendered under raw heading [k]. *)
Definition team_cells_rendered (row : node) : list string :=
  map (fun col => Str.remove "#" (Str.remove "*" col))
    (map (fun ele => Str.strip (Soup.text ele)) (Soup.find_all "td" [] row)).

(** What a league row is made of: the label cell, its link and the cells. *)
Definition league_row_of (season : Z) (row : node) (r : list value) : Prop :=
  exists th a_tag href team_abbrev,
    Soup.find "th" [("data-stat", "team_name")] row = Some th /\
    Str.strip (Soup.text th) <> "League Average" /\
    Soup.find "a" [] th = Some a_tag /\
    Soup.get "href" a_tag = Some href /\
    nth_error (Str.split "/" href) 2 = Some team_abbrev /\
    r = [VInt season; VStr team_abbrev; VStr (Str.strip (Soup.text th))]
          ++ map (fun td => VStr (Str.strip (Soup.text td)))
               (Soup.find_all "td" [] row).

(** [r] is what some body row of the season's league table contributes. *)
Definition league_row_in (get_soup : string -> node) (r : list value) (season : Z)
  : Prop :=
  exists row, In row (league_body_rows get_soup season) /\ league_row_of season row r.

(** [r1] is a row of a season no later than the season of [r2], the season
    being the field at position [k]. *)
Definition season_le (k : nat) (r1 r2 : list value) : Prop :=
  exists s1 s2,
    nth_error r1 k = Some (VInt s1) /\ nth_error r2 k = Some (VInt s2) /\ (s1 <= s2)%Z.

(** The rows a team call gathers over its whole range. *)
Definition team_raw (get_soup : string -> node) (team : string) (a last : Z)
  : list (list value) :=
  List.concat (map (team_rows get_soup (team_url team)) (PyList.range a (last + 1))).

(** The [tr] elements of a team season's table. *)
Definition team_trs (get_soup : string -> node) (url : string) (season : Z)
  : list node :=
  match nth_error (team_tables get_soup url season) 0 with
  | Some table => Soup.find_all "tr" [] table
  | None => []
  end.

(** A body row whose label is that of the league average (line 107). *)
Definition is_average (row : node) : bool :=
  match Soup.find "th" [("data-stat", "team_name")] row with
  | Some th => String.eqb (Str.strip (Soup.text th)) "League Average"
  | None => false
  end.

(** The body rows of a season that are not skipped. *)
Definition league_kept_rows (get_soup : string -> node) (season : Z) : list node :=
  filter (fun row => negb (is_average row)) (league_body_rows get_soup season).

(** What a season of a league call prints: the progress line, and the notice
    when the page has no table. *)
Definition league_progress (get_soup : string -> node) (season : Z) : list string :=
  match league_table get_soup season with
  | None => league_lines season
  | Some _ => [("Getting per-team batting data: " ++ Str.of_int season)%string]
  end.

(** The exceptions of [None.attr] for the attributes the league scraper
    reads, and of [[2]] on a short list. *)
Definition league_row_exn (exn : exception) : Prop :=
  exn = Exc AttributeError "'NoneType' object has no attribute 'text'"
  \/ exn = Exc AttributeError "'NoneType' object has no attribute 'get'"
  \/ exn = Exc AttributeError "'NoneType' object has no attribute 'split'"
  \/ exn = Exc IndexError "list index out of range".

Definition league_table_exn (exn : exception) : Prop :=
  exn = Exc AttributeError "'NoneType' object has no attribute 'find_all'".

(** ** The effect monad *)

Lemma bind_Return {A B} (m : M A) (k : A -> M B) out b :
  bind m k = (out, Return b) ->
  exists o1 a o2, m = (o1, Return a) /\ k a = (o2, Return b) /\ out = o1 ++ o2.
Proof.
  destruct m as [o1 [a | e]]; simpl; [| discriminate].
  destruct (k a) as [o2 r] eqn:Hk. intros H. inversion H; subst.
  exists o1, a, o2. auto.
Qed.

Lemma bind_ret_l {A B} (a : A) (k : A -> M B) : bind (ret a) k = k a.
Proof. unfold bind, ret. destruct (k a). reflexivity. Qed.

Lemma bind_Return_eq {A B} out (a : A) (k : A -> M B) :
  bind (out, Return a) k = (out ++ fst (k a), snd (k a)).
Proof. unfold bind. destruct (k a). reflexivity. Qed.

(** ** Lists and strings *)

Lemma fold_left_snoc {A B} (f : B -> A) (l : list B) (init : list A) :
  fold_left (fun acc x => acc ++ [f x]) l init = init ++ map f l.
Proof.
  revert init. induction l as [| x l IH]; intros init; simpl.
  - now rewrite app_nil_r.
  - rewrite IH, <- app_assoc. reflexivity.
Qed.

Lemma insert_length {A} i (x : A) l :
  List.length (PyList.insert i x l) = S (List.length l).
Proof.
  unfold PyList.insert. rewrite length_app. simpl.
  rewrite Nat.add_succ_r, <- length_app, firstn_skipn. reflexivity.
Qed.

Lemma insert_nth {A} i (x : A) l :
  nth_error (PyList.insert i x l) (Nat.min i (List.length l)) = Some x.
Proof.
  unfold PyList.insert.
  rewrite nth_error_app2; rewrite length_firstn; [| lia].
  now rewrite Nat.sub_diag.
Qed.

Lemma insert_In {A} i (x y : A) l :
  In y (PyList.insert i x l) -> y = x \/ In y l.
Proof.
  unfold PyList.insert. intros H. apply in_app_or in H.
  destruct H as [H | [H | H]]; auto.
  - right. rewrite <- (firstn_skipn i l). apply in_or_app. now left.
  - right. rewrite <- (firstn_skipn i l). apply in_or_app. now right.
Qed.

Lemma range_In a b s : In s (PyList.range a b) <-> (a <= s < b)%Z.
Proof.
  unfold PyList.range. rewrite in_map_iff. split.
  - intros (i & <- & Hi). apply in_seq in Hi. lia.
  - intros H. exists (Z.to_nat (s - a)). split; [lia |].
    apply in_seq. lia.
Qed.

Lemma range_empty a b : (b <= a)%Z -> PyList.range a b = [].
Proof.
  intros H. unfold PyList.range.
  replace (Z.to_nat (b - a)) with 0 by lia. reflexivity.
Qed.

Lemma range_cons a b : (a < b)%Z -> PyList.range a b = a :: PyList.range (a + 1) b.
Proof.
  intros H. unfold PyList.range.
  replace (Z.to_nat (b - a)) with (S (Z.to_nat (b - (a + 1)))) by lia.
  simpl. f_equal; [lia |].
  rewrite <- seq_shift, map_map. apply map_ext. intros i. lia.
Qed.

Lemma range_sorted a b : StronglySorted Z.le (PyList.range a b).
Proof.
  remember (Z.to_nat (b - a)) as n eqn:Hn. revert a Hn.
  induction n as [| n IH]; intros a Hn.
  - rewrite range_empty by lia. constructor.
  - rewrite range_cons by lia. constructor.
    + apply IH. lia.
    + apply Forall_forall. intros s Hs. apply range_In in Hs. lia.
Qed.

Lemma StronglySorted_nth {A} (R : A -> A -> Prop) l :
  StronglySorted R l ->
  forall i j x y, i < j -> nth_error l i = Some x -> nth_error l j = Some y -> R x y.
Proof.
  induction 1 as [| a l Hl IH Ha]; intros i j x y Hij Hi Hj.
  - destruct i; discriminate.
  - destruct j as [| j]; [lia |]. simpl in Hj.
    destruct i as [| i]; simpl in Hi.
    + inversion Hi; subst. rewrite Forall_forall in Ha.
      apply Ha. eapply nth_error_In; eauto.
    + apply (IH i j); auto. lia.
Qed.

Lemma StronglySorted_map {A B} (R : A -> A -> Prop) (Q : B -> B -> Prop)
      (f : A -> B) l :
  (forall x y, R x y -> Q (f x) (f y)) ->
  StronglySorted R l -> StronglySorted Q (map f l).
Proof.
  intros HRQ. induction 1 as [| a l Hl IH Ha]; simpl; constructor; auto.
  rewrite Forall_forall in *. intros y Hy. apply in_map_iff in Hy.
  destruct Hy as (x & <- & Hx). auto.
Qed.

(** Rows gathered season by season, each block carrying its season, are in
    season order. *)
Lemma blocks_sorted {A} (season_of : A -> Z -> Prop) seasons (blocks : list (list A)) :
  StronglySorted Z.le seasons ->
  Forall2 (fun s block => Forall (fun r => season_of r s) block) seasons blocks ->
  StronglySorted
    (fun r1 r2 => exists s1 s2, season_of r1 s1 /\ season_of r2 s2 /\ (s1 <= s2)%Z)
    (List.concat blocks).
Proof.
  intros Hs HF. induction HF as [| s block seasons blocks Hb HF IH]; simpl.
  - constructor.
  - inversion Hs as [| ? ? Hs' Hle]; subst. specialize (IH Hs').
    assert (Hrest : forall r2, In r2 (List.concat blocks) ->
                     exists s2, season_of r2 s2 /\ (s <= s2)%Z).
    { clear IH Hs Hs' Hb. induction HF as [| s' b' ss bs Hb' HF IH]; simpl.
      - intros r2 [].
      - intros r2 Hr2. apply Forall_cons_iff in Hle as [Hle1 Hle2].
        apply in_app_or in Hr2 as [Hr2 | Hr2]; [| now apply IH].
        rewrite Forall_forall in Hb'. exists s'. auto. }
    induction block as [| r block IHb]; simpl; [exact IH |].
    apply Forall_cons_iff in Hb as [Hr Hb]. constructor; [now apply IHb |].
    apply Forall_forall. intros r2 Hr2. apply in_app_or in Hr2 as [Hr2 | Hr2].
    + rewrite Forall_forall in Hb. exists s, s. repeat split; auto. lia.
    + destruct (Hrest r2 Hr2) as (s2 & H2 & Hle2). exists s, s2. auto.
Qed.

Lemma blocks_In {A} (P : A -> Z -> Prop) seasons (blocks : list (list A)) r :
  Forall2 (fun s block => Forall (fun r => P r s) block) seasons blocks ->
  In r (List.concat blocks) -> exists s, In s seasons /\ P r s.
Proof.
  induction 1 as [| s block seasons blocks Hb HF IH]; simpl; [intros [] |].
  intros Hr. apply in_app_or in Hr as [Hr | Hr].
  - rewrite Forall_forall in Hb. exists s. auto.
  - destruct (IH Hr) as (s' & Hs' & HP). exists s'. auto.
Qed.

(** ** pandas *)

Lemma width_ge data row : In row data -> List.length row <= Pandas.width data.
Proof.
  induction data as [| r data IH]; simpl; [intros [] |].
  intros [-> | H]; [lia |]. specialize (IH H). lia.
Qed.

Lemma pad_length w row : List.length row <= w -> List.length (Pandas.pad w row) = w.
Proof.
  intros H. unfold Pandas.pad. rewrite length_app, repeat_length. lia.
Qed.

Lemma pad_full w row : w <= List.length row -> Pandas.pad w row = row.
Proof.
  intros H. unfold Pandas.pad.
  replace (w - List.length row) with 0 by lia. apply app_nil_r.
Qed.

Lemma pad_nth w row i v :
  nth_error row i = Some v -> nth_error (Pandas.pad w row) i = Some v.
Proof.
  intros H. unfold Pandas.pad. rewrite nth_error_app1; auto.
  apply nth_error_Some. congruence.
Qed.

(** A row without a missing cell survives [dropna] after padding exactly
    when it needed no padding. *)
Lemma pad_notna w row :
  existsb Pandas.isna row = false -> List.length row <= w ->
  negb (existsb Pandas.isna (Pandas.pad w row)) = (List.length row =? w)%nat.
Proof.
  intros Hna Hle. unfold Pandas.pad. rewrite existsb_app, Hna. simpl.
  destruct (Nat.eqb_spec (List.length row) w) as [-> | Hne].
  - now rewrite Nat.sub_diag.
  - destruct (w - List.length row) as [| k] eqn:Hk; [lia | reflexivity].
Qed.

Lemma dropna_padded w data :
  Forall (fun row => existsb Pandas.isna row = false) data ->
  Forall (fun row => List.length row <= w) data ->
  filter (fun row => negb (existsb Pandas.isna row)) (map (Pandas.pad w) data)
  = filter (fun row => (List.length row =? w)%nat) data.
Proof.
  induction data as [| row data IH]; intros Hna Hle; simpl; [reflexivity |].
  apply Forall_cons_iff in Hna as [Hna1 Hna2].
  apply Forall_cons_iff in Hle as [Hle1 Hle2].
  rewrite pad_notna by assumption.
  destruct (Nat.eqb_spec (List.length row) w) as [Heq | Hne].
  - rewrite pad_full by lia. f_equal. now apply IH.
  - now apply IH.
Qed.

(** What a frame that was built looks like. *)
Lemma new_Return data cols out df :
  Pandas.new data cols = (out, Return df) ->
  out = [] /\ columns df = cols
  /\ rows df = map (Pandas.pad (List.length cols)) data
  /\ Forall (fun row => List.length row <= List.length cols) data.
Proof.
  unfold Pandas.new. destruct data as [| r data].
  - intros H. inversion H; subst. simpl. auto.
  - destruct (Nat.eqb_spec (List.length cols) (Pandas.width (r :: data))) as [Heq | Hne];
      intros H; inversion H; subst; simpl columns; simpl rows.
    repeat split; auto.
    + now rewrite Heq.
    + apply Forall_forall. intros row Hrow. rewrite Heq. now apply width_ge.
Qed.

Lemma new_Return_width data cols out df :
  Pandas.new data cols = (out, Return df) ->
  data = [] \/ Pandas.width data = List.length cols.
Proof.
  unfold Pandas.new. destruct data as [| r data]; [now left |].
  destruct (Nat.eqb_spec (List.length cols) (Pandas.width (r :: data))) as [Heq | Hne];
    [| discriminate].
  intros _. now right.
Qed.

(** Any other width of the widest row is a [ValueError]. *)
Lemma new_mismatch data cols :
  data <> [] -> Pandas.width data <> List.length cols ->
  exists msg, Pandas.new data cols = ([], Raise (Exc ValueError msg)).
Proof.
  intros Hne Hw. unfold Pandas.new. destruct data as [| r data]; [congruence |].
  destruct (Nat.eqb_spec (List.length cols) (Pandas.width (r :: data))) as [Heq | _];
    [congruence |].
  eexists. reflexivity.
Qed.



(** ** team_batting_bref: the loop *)

Section TeamLoop.

Variable get_soup : string -> node.

Variables team url : string.

Lemma team_step_eq st season :
  team_step get_soup team url st season
  = match nth_error (team_tables get_soup url season) 0 with
    | Some table =>
        ([team_line team season],
         Return {| raw_data :=
                     raw_data st ++ map (team_row season) (Soup.find_all "tr" [] table);
                   headings :=
                     match headings st with
                     | None => Some (team_headings table)
                     | Some h => Some h
                     end |})
    | None =>
        ([team_line team season],
         Raise (Exc IndexError "list index out of range"))
    end.
Proof.
  unfold team_step, team_tables, team_line, team_headings, getitem.
  destruct (nth_error _ 0) as [table |]; simpl; [| reflexivity].
  rewrite fold_left_snoc. reflexivity.
Qed.

Lemma team_for_each_Return seasons : forall st out st',
  for_each seasons (team_step get_soup team url) st = (out, Return st') ->
  out = map (team_line team) seasons
  /\ Forall (fun s => nth_error (team_tables get_soup url s) 0 <> None) seasons
  /\ raw_data st' = raw_data st ++ List.concat (map (team_rows get_soup url) seasons)
  /\ headings st' = match headings st with
                    | Some h => Some h
                    | None => team_first_headings get_soup url seasons
                    end.
Proof.
  induction seasons as [| s seasons IH]; intros st out st' Hrun; simpl in Hrun.
  - inversion Hrun; subst. simpl. rewrite app_nil_r.
    repeat split; auto. now destruct (headings st').
  - apply bind_Return in Hrun. destruct Hrun as (o1 & st1 & o2 & H1 & H2 & ->).
    rewrite team_step_eq in H1.
    destruct (nth_error (team_tables get_soup url s) 0) as [table |] eqn:Htab; [| discriminate].
    inversion H1; subst o1 st1; clear H1.
    apply IH in H2. destruct H2 as (-> & Hall & Hraw & Hhead).
    cbn [raw_data headings] in Hraw, Hhead.
    assert (Hrows : team_rows get_soup url s
                    = map (team_row s) (Soup.find_all "tr" [] table))
      by (unfold team_rows; now rewrite Htab).
    repeat split.
    + constructor; [congruence | exact Hall].
    + rewrite Hraw. cbn [map List.concat]. rewrite Hrows.
      now rewrite app_assoc.
    + rewrite Hhead. unfold team_first_headings. rewrite Htab.
      now destruct (headings st).
Qed.

(** The only exception the loop raises is the [IndexError] of [[0]], at the
    first season whose page has no table. *)
Lemma team_for_each_Raise pre s post st :
  Forall (fun s' => nth_error (team_tables get_soup url s') 0 <> None) pre ->
  nth_error (team_tables get_soup url s) 0 = None ->
  for_each (pre ++ s :: post) (team_step get_soup team url) st
  = (map (team_line team) (pre ++ [s]),
     Raise (Exc IndexError "list index out of range")).
Proof.
  revert st. induction pre as [| p pre IH]; intros st Hpre Hs; cbn [for_each app].
  - rewrite team_step_eq, Hs. reflexivity.
  - apply Forall_cons_iff in Hpre as [Hp Hpre]. rewrite team_step_eq.
    destruct (nth_error (team_tables get_soup url p) 0) as [table |]; [| congruence].
    rewrite bind_Return_eq, IH by assumption. reflexivity.
Qed.

Lemma team_row_notna season row :
  existsb Pandas.isna (team_row season row) = false.
Proof.
  destruct (existsb _ _) eqn:E; [| reflexivity].
  apply existsb_exists in E. destruct E as (v & Hin & Hna).
  unfold team_row in Hin. apply insert_In in Hin. destruct Hin as [-> | Hin].
  - discriminate.
  - apply in_map_iff in Hin. destruct Hin as (c & <- & _). discriminate.
Qed.

Lemma team_rows_notna seasons :
  Forall (fun row => existsb Pandas.isna row = false)
    (List.concat (map (team_rows get_soup url) seasons)).
Proof.
  apply Forall_forall. intros r Hr. apply in_concat in Hr.
  destruct Hr as (block & Hb & Hr). apply in_map_iff in Hb.
  destruct Hb as (s & <- & _). unfold team_rows in Hr.
  destruct (nth_error (team_tables get_soup url s) 0); [| destruct Hr].
  apply in_map_iff in Hr. destruct Hr as (row & <- & _). apply team_row_notna.
Qed.

End TeamLoop.

Lemma team_Return get_soup team a e out df :
  team_batting_bref get_soup team (Some a) e = (out, Return df) ->
  let seasons := PyList.range a (last_season a e + 1) in
  let raw := List.concat (map (team_rows get_soup (team_url team)) seasons) in
  exists H,
    team_first_headings get_soup (team_url team) seasons = Some H
    /\ out = map (team_line team) seasons
    /\ Forall (fun s => nth_error (team_tables get_soup (team_url team) s) 0 <> None)
         seasons
    /\ columns df = PyList.insert 2 (VStr "Year") H
    /\ rows df = filter (fun r => (List.length r =? List.length (columns df))%nat) raw
    /\ Forall (fun r => List.length r <= List.length (columns df)) raw.
Proof.
  unfold team_batting_bref, team_loop. fold (team_url team). fold (last_season a e).
  intros Hrun. set (seasons := PyList.range a (last_season a e + 1)) in *.
  set (raw := List.concat (map (team_rows get_soup (team_url team)) seasons)).
  apply bind_Return in Hrun. destruct Hrun as (o1 & st & o2 & Hloop & Hrun & ->).
  apply team_for_each_Return in Hloop.
  destruct Hloop as (-> & Htabs & Hraw & Hhead). cbn [raw_data headings] in Hraw, Hhead.
  destruct (headings st) as [H |] eqn:HH; [| discriminate].
  cbn [assert_not_none] in Hrun. rewrite bind_ret_l in Hrun.
  apply bind_Return in Hrun. destruct Hrun as (o3 & data & o4 & Hnew & Hret & ->).
  apply new_Return in Hnew. destruct Hnew as (-> & Hcols & Hrows & Hle).
  inversion Hret; subst o4 df; clear Hret.
  rewrite Hraw in Hrows, Hle. cbn [app] in Hrows, Hle. fold raw in Hrows, Hle.
  exists H. cbn [Pandas.dropna columns rows]. rewrite Hcols, Hrows.
  repeat split; auto.
  - now rewrite app_nil_r.
  - apply dropna_padded; [apply team_rows_notna | exact Hle].
Qed.

(** ** season_batting_bref: the loops *)

Section LeagueLoop.

Variable get_soup : string -> node.

(** A body row either is skipped, or appends one row built from it. *)
Lemma season_row_Return season raw row out raw' :
  season_row season raw row = (out, Return raw') ->
  out = [] /\ (raw' = raw \/ exists r, league_row_of season row r /\ raw' = raw ++ [r]).
Proof.
  unfold season_row.
  destruct (Soup.find "th" [("data-stat", "team_name")] row) as [th |] eqn:Hth;
    [| discriminate].
  cbn [getattr]. rewrite bind_ret_l.
  destruct (String.eqb_spec (Str.strip (Soup.text th)) "League Average") as [Heq | Hne].
  { intros H. inversion H; subst. auto. }
  destruct (Soup.find "a" [] th) as [a_tag |] eqn:Ha; [| discriminate].
  cbn [getattr]. rewrite bind_ret_l.
  destruct (Soup.get "href" a_tag) as [href |] eqn:Hhref; [| discriminate].
  cbn [getattr]. rewrite bind_ret_l. unfold getitem.
  destruct (nth_error (Str.split "/" href) 2) as [team_abbrev |] eqn:Habbrev;
    [| discriminate].
  rewrite bind_ret_l. intros H. inversion H; subst. split; [reflexivity |].
  right. eexists. split; [| reflexivity].
  exists th, a_tag, href, team_abbrev. repeat split; auto.
Qed.

Lemma season_rows_Return season rows : forall raw out raw',
  for_each rows (season_row season) raw = (out, Return raw') ->
  out = []
  /\ exists new,
      raw' = raw ++ new
      /\ Forall (fun r => exists row, In row rows /\ league_row_of season row r) new.
Proof.
  induction rows as [| row rows IH]; intros raw out raw' Hrun; simpl in Hrun.
  - inversion Hrun; subst. split; [reflexivity |]. exists [].
    now rewrite app_nil_r.
  - apply bind_Return in Hrun. destruct Hrun as (o1 & raw1 & o2 & H1 & H2 & ->).
    apply season_row_Return in H1. destruct H1 as (-> & H1).
    apply IH in H2. destruct H2 as (-> & new & -> & Hnew).
    split; [reflexivity |].
    assert (Hnew' : Forall (fun r => exists row0, In row0 (row :: rows)
                                      /\ league_row_of season row0 r) new).
    { eapply Forall_impl; [| exact Hnew]. intros r (row0 & Hin & Hr).
      exists row0. split; [now right | exact Hr]. }
    destruct H1 as [-> | (r & Hr & ->)].
    + exists new. auto.
    + exists (r :: new). rewrite <- app_assoc. split; [reflexivity |].
      constructor; [| exact Hnew']. exists row. split; [now left | exact Hr].
Qed.

(** A season without the table prints the notice and changes nothing. *)
Lemma season_step_missing st season :
  league_table get_soup season = None ->
  season_step get_soup st season = (league_lines season, Return st).
Proof.
  unfold season_step, league_table, league_url. intros ->. reflexivity.
Qed.

Lemma season_step_Return st season out st' :
  season_step get_soup st season = (out, Return st') ->
  (league_table get_soup season = None /\ st' = st)
  \/ (exists table new,
        league_table get_soup season = Some table
        /\ raw_data st' = raw_data st ++ new
        /\ Forall (fun r => league_row_in get_soup r season) new
        /\ headings st' = match headings st with
                          | Some h => Some h
                          | None => option_map league_headings
                                      (Soup.find "thead" [] table)
                          end
        /\ headings st' <> None).
Proof.
  intros Hrun.
  destruct (league_table get_soup season) as [table |] eqn:Htab.
  2:{ rewrite season_step_missing in Hrun by assumption.
      inversion Hrun; subst. now left. }
  right. exists table.
  unfold season_step in Hrun. fold (league_url season) in Hrun.
  fold (league_table get_soup season) in Hrun. rewrite Htab in Hrun.
  apply bind_Return in Hrun. destruct Hrun as (o0 & [] & om & _ & Hm & _).
  apply bind_Return in Hm. destruct Hm as (o1 & hs & o2 & Hheads & Hm & _).
  apply bind_Return in Hm. destruct Hm as (o3 & tbody & o4 & Htbody & Hm & _).
  destruct (Soup.find "tbody" [] table) as [tb |] eqn:Htb; [| discriminate].
  cbn [getattr] in Htbody. inversion Htbody; subst o3 tbody; clear Htbody.
  apply bind_Return in Hm. destruct Hm as (o5 & raw' & o6 & Hrows & Hret & _).
  inversion Hret; subst; clear Hret.
  apply season_rows_Return in Hrows. destruct Hrows as (_ & new & -> & Hnew).
  exists new. cbn [raw_data headings]. repeat split.
  - eapply Forall_impl; [| exact Hnew]. intros r (row & Hin & Hr).
    exists row. split; [| exact Hr].
    unfold league_body_rows. now rewrite Htab, Htb.
  - destruct (headings st) as [h |].
    + inversion Hheads; now subst.
    + destruct (Soup.find "thead" [] table) as [thead |]; [| discriminate].
      cbn [getattr] in Hheads. rewrite bind_ret_l in Hheads.
      inversion Hheads; now subst.
  - destruct (headings st) as [h |].
    + inversion Hheads; subst. discriminate.
    + destruct (Soup.find "thead" [] table) as [thead |]; [| discriminate].
      cbn [getattr] in Hheads. rewrite bind_ret_l in Hheads.
      inversion Hheads; subst. discriminate.
Qed.

Lemma season_for_each_Return seasons : forall st out st',
  for_each seasons (season_step get_soup) st = (out, Return st') ->
  exists blocks,
    raw_data st' = raw_data st ++ List.concat blocks
    /\ Forall2 (fun s block => Forall (fun r => league_row_in get_soup r s) block)
         seasons blocks
    /\ headings st' = match headings st with
                      | Some h => Some h
                      | None => league_first_headings get_soup seasons
                      end.
Proof.
  induction seasons as [| s seasons IH]; intros st out st' Hrun; simpl in Hrun.
  - inversion Hrun; subst. exists []. simpl. rewrite app_nil_r.
    repeat split; auto. now destruct (headings st').
  - apply bind_Return in Hrun. destruct Hrun as (o1 & st1 & o2 & H1 & H2 & ->).
    apply IH in H2. destruct H2 as (blocks & Hraw & HF & Hhead).
    apply season_step_Return in H1.
    destruct H1 as [(Htab & ->) | (table & new & Htab & Hraw1 & Hnew & Hhead1 & Hsome)].
    + exists ([] :: blocks). cbn [List.concat app league_first_headings].
      rewrite Htab. repeat split; auto.
    + exists (new :: blocks). cbn [List.concat league_first_headings].
      rewrite Htab. repeat split.
      * now rewrite Hraw, Hraw1, app_assoc.
      * now constructor.
      * rewrite Hhead. destruct (headings st1) as [h1 |]; [| congruence].
        rewrite Hhead1. now destruct (headings st).
Qed.

(** When no season has the table the loop prints a notice per season and
    ends in the state it started from. *)
Lemma season_for_each_missing seasons st :
  Forall (fun s => league_table get_soup s = None) seasons ->
  for_each seasons (season_step get_soup) st
  = (List.concat (map league_lines seasons), Return st).
Proof.
  induction 1 as [| s seasons Hs Hrest IH]; [reflexivity |].
  cbn [for_each map List.concat]. rewrite season_step_missing by assumption.
  rewrite bind_Return_eq, IH. reflexivity.
Qed.

End LeagueLoop.

Lemma league_row_length season row r :
  league_row_of season row r -> 3 <= List.length r.
Proof.
  intros (th & a_tag & href & ab & _ & _ & _ & _ & _ & ->).
  rewrite length_app. simpl. lia.
Qed.

Lemma season_Return get_soup a e out df :
  season_batting_bref get_soup (Some a) e = (out, Return df) ->
  let seasons := PyList.range a (last_season a e + 1) in
  exists H blocks,
    league_first_headings get_soup seasons = Some H
    /\ columns df
       = [VStr "season"; VStr "team_abbrev"; VStr "team_name"] ++ PyList.slice_from 1 H
    /\ Forall2 (fun s block => Forall (fun r => league_row_in get_soup r s) block)
         seasons blocks
    /\ rows df = map (Pandas.pad (List.length (columns df))) (List.concat blocks)
    /\ Forall (fun r => List.length r <= List.length (columns df)) (List.concat blocks).
Proof.
  unfold season_batting_bref, season_loop. fold (last_season a e).
  intros Hrun. set (seasons := PyList.range a (last_season a e + 1)) in *.
  apply bind_Return in Hrun. destruct Hrun as (o1 & st & o2 & Hloop & Hrun & ->).
  apply season_for_each_Return in Hloop.
  destruct Hloop as (blocks & Hraw & HF & Hhead). cbn [raw_data headings app] in Hraw, Hhead.
  destruct (headings st) as [H |] eqn:HH; [| discriminate].
  cbn [assert_not_none] in Hrun. rewrite bind_ret_l in Hrun.
  apply bind_Return in Hrun. destruct Hrun as (o3 & data & o4 & Hnew & Hret & ->).
  apply new_Return in Hnew. destruct Hnew as (-> & Hcols & Hrows & Hle).
  inversion Hret; subst o4 df; clear Hret.
  rewrite Hraw in Hrows, Hle. exists H, blocks. rewrite Hcols, Hrows.
  repeat split; auto.
Qed.

Lemma range_split a b s :
  (a <= s < b)%Z -> PyList.range a b = PyList.range a s ++ s :: PyList.range (s + 1) b.
Proof.
  remember (Z.to_nat (s - a)) as n eqn:Hn. revert a Hn.
  induction n as [| n IH]; intros a Hn Hs.
  - assert (a = s) by lia. subst a.
    rewrite (range_empty s s) by lia. now rewrite range_cons by lia.
  - rewrite (range_cons a b), (range_cons a s) by lia. simpl. f_equal.
    apply IH; lia.
Qed.

(** The first season of an interval at which a test succeeds. *)
Lemma first_season (p : Z -> bool) a b s :
  (a <= s < b)%Z -> p s = true ->
  exists s0, (a <= s0 <= s)%Z /\ p s0 = true
             /\ forall s', (a <= s' < s0)%Z -> p s' = false.
Proof.
  remember (Z.to_nat (s - a)) as n eqn:Hn. revert a Hn.
  induction n as [| n IH]; intros a Hn Hs Hp.
  - assert (a = s) by lia. subst a. exists s.
    split; [lia |]. split; [exact Hp |]. intros s' Hs'. lia.
  - destruct (p a) eqn:Hpa.
    + exists a. split; [lia |]. split; [exact Hpa |]. intros s' Hs'. lia.
    + destruct (IH (a + 1)%Z) as (s0 & Hs0 & Hp0 & Hfirst); auto; try lia.
      exists s0. split; [lia |]. split; [exact Hp0 |].
      intros s' Hs'. destruct (Z.eq_dec s' a) as [-> | Hne]; auto.
      apply Hfirst. lia.
Qed.

(** ** Rows of team_batting_bref *)

Lemma team_row_cells season row :
  team_row season row = PyList.insert 2 (VInt season) (map VStr (team_cells row)).
Proof. reflexivity. Qed.

Lemma team_raw_In get_soup url seasons r :
  In r (List.concat (map (team_rows get_soup url) seasons)) ->
  exists s row, In s seasons /\ r = team_row s row.
Proof.
  intros Hr. apply in_concat in Hr. destruct Hr as (block & Hb & Hr).
  apply in_map_iff in Hb. destruct Hb as (s & <- & Hs). unfold team_rows in Hr.
  destruct (nth_error (team_tables get_soup url s) 0); [| destruct Hr].
  apply in_map_iff in Hr. destruct Hr as (row & <- & _). eauto.
Qed.

Lemma occurs_remove_same c s : Str.occurs c (Str.remove c s) = false.
Proof.
  induction s as [| a s IH]; simpl; [reflexivity |].
  destruct (Ascii.eqb a c) eqn:E; [exact IH |]. simpl. now rewrite E, IH.
Qed.

Lemma occurs_remove c d s :
  Str.occurs c s = false -> Str.occurs c (Str.remove d s) = false.
Proof.
  induction s as [| a s IH]; simpl; [reflexivity |].
  intros H. apply orb_false_iff in H as [Ha Hs].
  destruct (Ascii.eqb a d); [now apply IH |]. simpl. now rewrite Ha, IH.
Qed.

Lemma team_cells_clean row c :
  In c (team_cells row) ->
  Str.occurs "*" c = false /\ Str.occurs "#" c = false /\ keep_col c = true.
Proof.
  unfold team_cells. intros H. apply filter_In in H as [H Hkeep].
  apply in_map_iff in H. destruct H as (col & <- & _). repeat split; auto.
  - apply occurs_remove, occurs_remove_same.
  - apply occurs_remove_same.
Qed.

Lemma team_row_In season row v :
  In v (team_row season row) -> v = VInt season \/ exists c, v = VStr c /\ In c (team_cells row).
Proof.
  rewrite team_row_cells. intros H. apply insert_In in H as [-> | H]; [now left |].
  apply in_map_iff in H. destruct H as (c & <- & Hc). right. eauto.
Qed.

(** The rows of a returned team frame are rows the loop gathered. *)
Lemma team_rows_of_frame get_soup team a e out df r :
  team_batting_bref get_soup team (Some a) e = (out, Return df) ->
  In r (rows df) ->
  List.length r = List.length (columns df)
  /\ exists s row, (a <= s <= last_season a e)%Z /\ r = team_row s row.
Proof.
  intros Hrun Hr. apply team_Return in Hrun.
  destruct Hrun as (H & _ & _ & _ & _ & Hrows & _).
  rewrite Hrows in Hr. apply filter_In in Hr as [Hr Hlen].
  split; [now apply Nat.eqb_eq |].
  apply team_raw_In in Hr. destruct Hr as (s & row & Hs & ->).
  apply range_In in Hs. exists s, row. split; [lia | reflexivity].
Qed.

(** ** Rows of season_batting_bref *)

Lemma league_rows_of_frame get_soup a e out df r :
  season_batting_bref get_soup (Some a) e = (out, Return df) ->
  In r (rows df) ->
  exists s r0,
    (a <= s <= last_season a e)%Z
    /\ league_row_in get_soup r0 s
    /\ List.length r0 <= List.length (columns df)
    /\ r = Pandas.pad (List.length (columns df)) r0.
Proof.
  intros Hrun Hr. apply season_Return in Hrun.
  destruct Hrun as (H & blocks & _ & _ & HF & Hrows & Hle).
  rewrite Hrows in Hr. apply in_map_iff in Hr. destruct Hr as (r0 & <- & Hr0).
  rewrite Forall_forall in Hle. specialize (Hle _ Hr0).
  destruct (blocks_In _ _ _ _ HF Hr0) as (s & Hs & Hin).
  apply range_In in Hs. exists s, r0. repeat split; auto; lia.
Qed.

Lemma keep_col_markers c :
  keep_col c = true ->
  (Str.contains "Totals" c = false /\ Str.contains "NL teams" c = false
   /\ Str.contains "AL teams" c = false)
  /\ c <> "Team Totals" /\ c <> "NL teams" /\ c <> "AL teams".
Proof.
  intros H. split.
  - unfold keep_col in H. apply andb_true_iff in H as [H H3].
    apply andb_true_iff in H as [H1 H2]. now rewrite negb_true_iff in H1, H2, H3.
  - repeat split; intros ->; discriminate.
Qed.

Lemma league_row_name season row r :
  league_row_of season row r ->
  exists abbrev name,
    name <> "League Average"
    /\ firstn 3 r = [VInt season; VStr abbrev; VStr name].
Proof.
  intros (th & a_tag & href & ab & _ & Hne & _ & _ & _ & ->).
  exists ab, (Str.strip (Soup.text th)). split; [exact Hne | reflexivity].
Qed.

Lemma firstn_pad n w r :
  n <= List.length r -> firstn n (Pandas.pad w r) = firstn n r.
Proof.
  intros H. unfold Pandas.pad. rewrite firstn_app.
  replace (n - List.length r) with 0 by lia. simpl. apply app_nil_r.
Qed.

(** The first three fields of a returned league row. *)
Lemma league_row_prefix get_soup a e out df r :
  season_batting_bref get_soup (Some a) e = (out, Return df) ->
  In r (rows df) ->
  exists s abbrev name,
    (a <= s <= last_season a e)%Z
    /\ name <> "League Average"
    /\ firstn 3 r = [VInt s; VStr abbrev; VStr name].
Proof.
  intros Hrun Hr.
  destruct (league_rows_of_frame _ _ _ _ _ _ Hrun Hr)
    as (s & r0 & Hs & (row & _ & Hrow) & _ & ->).
  destruct (league_row_name _ _ _ Hrow) as (ab & name & Hne & Hpre).
  exists s, ab, name. repeat split; try lia; auto.
  rewrite firstn_pad; [exact Hpre |]. now apply league_row_length in Hrow.
Qed.

(** ** Season order *)

Lemma season_le_order k rows :
  StronglySorted (season_le k) rows ->
  forall i j r1 r2 s1 s2,
    i < j -> nth_error rows i = Some r1 -> nth_error rows j = Some r2 ->
    nth_error r1 k = Some (VInt s1) -> nth_error r2 k = Some (VInt s2) ->
    (s1 <= s2)%Z.
Proof.
  intros Hsorted i j r1 r2 s1 s2 Hij Hi Hj H1 H2.
  destruct (StronglySorted_nth _ _ Hsorted i j r1 r2 Hij Hi Hj)
    as (t1 & t2 & Ht1 & Ht2 & Hle).
  congruence.
Qed.

Lemma filter_concat {A} (p : A -> bool) (l : list (list A)) :
  filter p (List.concat l) = List.concat (map (filter p) l).
Proof.
  induction l as [| x l IH]; simpl; [reflexivity |].
  now rewrite filter_app, IH.
Qed.

Lemma Forall2_map_self {A B} (P : A -> B -> Prop) (f : A -> B) l :
  (forall x, In x l -> P x (f x)) -> Forall2 P l (map f l).
Proof.
  induction l as [| x l IH]; intros H; simpl; constructor.
  - apply H. now left.
  - apply IH. intros y Hy. apply H. now right.
Qed.

Lemma team_year_field season row w :
  List.length (team_row season row) = w ->
  nth_error (team_row season row) (Nat.min 2 (w - 1)) = Some (VInt season).
Proof.
  intros <-. rewrite team_row_cells, insert_length.
  replace (S (List.length (map VStr (team_cells row))) - 1)
    with (List.length (map VStr (team_cells row))) by lia.
  apply insert_nth.
Qed.

(** The ["Year"] column of a returned team frame holds the seasons. *)
Lemma team_year_column get_soup team a e out df :
  team_batting_bref get_soup team (Some a) e = (out, Return df) ->
  nth_error (columns df) (year_index df) = Some (VStr "Year")
  /\ forall r, In r (rows df) ->
       exists s, nth_error r (year_index df) = Some (VInt s)
                 /\ (a <= s <= last_season a e)%Z.
Proof.
  intros Hrun. split.
  - apply team_Return in Hrun. destruct Hrun as (H & _ & _ & _ & Hcols & _).
    unfold year_index. rewrite Hcols, insert_length.
    replace (S (List.length H) - 1) with (List.length H) by lia.
    apply insert_nth.
  - intros r Hr.
    destruct (team_rows_of_frame _ _ _ _ _ _ _ Hrun Hr) as (Hlen & s & row & Hs & ->).
    exists s. split; [| exact Hs]. now apply team_year_field.
Qed.

(** ** From the loop to the frame *)

Lemma team_frame_of_loop get_soup team a e out st :
  team_loop get_soup team (team_url team) a (last_season a e) = (out, Return st) ->
  team_batting_bref get_soup team (Some a) e
  = match headings st with
    | None => (out, Raise (Exc AssertionError ""))
    | Some H =>
        match Pandas.new (raw_data st) (PyList.insert 2 (VStr "Year") H) with
        | (_, Return data) => (out, Return (Pandas.dropna data))
        | (_, Raise exn) => (out, Raise exn)
        end
    end.
Proof.
  intros Hloop. unfold team_batting_bref. fold (team_url team). fold (last_season a e).
  rewrite Hloop, bind_Return_eq.
  destruct (headings st) as [H |]; cbn [assert_not_none].
  - rewrite bind_ret_l.
    destruct (Pandas.new (raw_data st) (PyList.insert 2 (VStr "Year") H))
      as [o [data | exn]] eqn:Hnew.
    + apply new_Return in Hnew. destruct Hnew as (-> & _).
      cbn. now rewrite app_nil_r.
    + unfold Pandas.new in Hnew. destruct (raw_data st); [discriminate |].
      destruct (Nat.eqb _ _); [discriminate |].
      inversion Hnew; subst. cbn. now rewrite app_nil_r.
  - cbn. now rewrite app_nil_r.
Qed.

Lemma season_frame_of_loop get_soup a e out st :
  season_loop get_soup a (last_season a e) = (out, Return st) ->
  season_batting_bref get_soup (Some a) e
  = match headings st with
    | None => (out, Raise (Exc AssertionError ""))
    | Some H =>
        match Pandas.new (raw_data st)
                ([VStr "season"; VStr "team_abbrev"; VStr "team_name"]
                   ++ PyList.slice_from 1 H) with
        | (_, Return data) => (out, Return data)
        | (_, Raise exn) => (out, Raise exn)
        end
    end.
Proof.
  intros Hloop. unfold season_batting_bref. fold (last_season a e).
  rewrite Hloop, bind_Return_eq.
  destruct (headings st) as [H |]; cbn [assert_not_none].
  - rewrite bind_ret_l.
    destruct (Pandas.new (raw_data st) _) as [o [data | exn]] eqn:Hnew.
    + apply new_Return in Hnew. destruct Hnew as (-> & _).
      cbn. now rewrite app_nil_r.
    + unfold Pandas.new in Hnew. destruct (raw_data st); [discriminate |].
      destruct (Nat.eqb _ _); [discriminate |].
      inversion Hnew; subst. cbn. now rewrite app_nil_r.
  - cbn. now rewrite app_nil_r.
Qed.

Lemma team_loop_of_frame get_soup team a e out df :
  team_batting_bref get_soup team (Some a) e = (out, Return df) ->
  exists st, team_loop get_soup team (team_url team) a (last_season a e) = (out, Return st)
             /\ raw_data st
                = List.concat (map (team_rows get_soup (team_url team))
                                 (PyList.range a (last_season a e + 1))).
Proof.
  intros Hrun. pose proof Hrun as Hrun'.
  unfold team_batting_bref in Hrun'. fold (team_url team) in Hrun'.
  fold (last_season a e) in Hrun'.
  apply bind_Return in Hrun'. destruct Hrun' as (o1 & st & o2 & Hloop & _ & Hout).
  pose proof (team_frame_of_loop _ _ _ _ _ _ Hloop) as Heq. rewrite Hrun in Heq.
  assert (out = o1).
  { destruct (headings st); [| now inversion Heq].
    destruct (Pandas.new _ _) as [? [? | ?]]; now inversion Heq. }
  subst o1. exists st. split; [exact Hloop |].
  apply team_for_each_Return in Hloop. now destruct Hloop as (_ & _ & -> & _).
Qed.

Lemma season_loop_of_frame get_soup a e out df :
  season_batting_bref get_soup (Some a) e = (out, Return df) ->
  exists st H,
    season_loop get_soup a (last_season a e) = (out, Return st)
    /\ headings st = Some H
    /\ columns df = [VStr "season"; VStr "team_abbrev"; VStr "team_name"]
                      ++ PyList.slice_from 1 H
    /\ rows df = map (Pandas.pad (List.length (columns df))) (raw_data st)
    /\ Forall (fun n => List.length n <= List.length (columns df)) (raw_data st).
Proof.
  intros Hrun. pose proof Hrun as Hrun'.
  unfold season_batting_bref in Hrun'. fold (last_season a e) in Hrun'.
  apply bind_Return in Hrun'. destruct Hrun' as (o1 & st & o2 & Hloop & _ & Hout).
  pose proof (season_frame_of_loop _ _ _ _ _ Hloop) as Heq. rewrite Hrun in Heq.
  destruct (headings st) as [H |] eqn:HH; [| now inversion Heq].
  destruct (Pandas.new _ _) as [o [data | exn]] eqn:Hnew; [| now inversion Heq].
  inversion Heq; subst o1 data. exists st, H.
  apply new_Return in Hnew. destruct Hnew as (_ & Hcols & Hrows & Hle).
  rewrite Hcols, Hrows. auto.
Qed.

(** ** Link targets *)

Lemma split_whole sep w : Str.occurs sep w = false -> Str.split sep w = [w].
Proof.
  induction w as [| c w IH]; simpl; [reflexivity |].
  intros H. apply orb_false_iff in H as [Hc Hw]. now rewrite Hc, IH.
Qed.

Lemma split_segment sep w rest :
  Str.occurs sep w = false ->
  Str.split sep (w ++ String sep rest) = w :: Str.split sep rest.
Proof.
  induction w as [| c w IH]; simpl.
  - intros _. now rewrite Ascii.eqb_refl.
  - intros H. apply orb_false_iff in H as [Hc Hw]. now rewrite Hc, IH.
Qed.

Lemma append_empty_r s : (s ++ EmptyString)%string = s.
Proof. induction s as [| c s IH]; simpl; [reflexivity | now rewrite IH]. Qed.

(** The third piece of a root-relative target is its second path segment. *)
Lemma second_path_segment seg1 seg2 tail :
  Str.occurs "/" seg1 = false -> Str.occurs "/" seg2 = false ->
  tail = EmptyString \/ (exists rest, tail = String "/" rest) ->
  nth_error (Str.split "/" ("/" ++ seg1 ++ "/" ++ seg2 ++ tail)) 2 = Some seg2.
Proof.
  intros H1 H2 Htail.
  change ("/" ++ seg1 ++ "/" ++ seg2 ++ tail)%string
    with (String "/" (seg1 ++ String "/" (seg2 ++ tail)))%string.
  cbn [Str.split]. rewrite Ascii.eqb_refl, split_segment by assumption.
  destruct Htail as [-> | (rest & ->)].
  - rewrite append_empty_r. now rewrite split_whole.
  - now rewrite split_segment.
Qed.

(** ** The claims *)

(** C1 (what the code does). When no season of the range has a page with
    the [teams_standard_batting] table, [season_batting_bref] prints the
    notice for every season and then fails the assertion on [headings]: it
    raises [AssertionError] instead of returning an empty table. *)
Theorem season_without_tables_raises
        (get_soup : string -> node) (a : Z) (e : option Z) :
  (forall s, (a <= s <= last_season a e)%Z -> league_table get_soup s = None) ->
  season_batting_bref get_soup (Some a) e
  = (List.concat (map league_lines (PyList.range a (last_season a e + 1))),
     Raise (Exc AssertionError "")).
Proof.
  intros Hnone. unfold season_batting_bref, season_loop. fold (last_season a e).
  rewrite season_for_each_missing.
  - rewrite bind_Return_eq. cbn [headings assert_not_none fst snd].
    now rewrite app_nil_r.
  - apply Forall_forall. intros s Hs. apply range_In in Hs. apply Hnone. lia.
Qed.

Lemma season_without_tables_raises_witness :
  season_batting_bref Sample.league_site (Some 2030%Z) None
  = (["Getting per-team batting data: 2030"; "Table not found for 2030"],
     Raise (Exc AssertionError "")).
Proof.
  apply (season_without_tables_raises Sample.league_site 2030 None).
  intros s Hs. simpl in Hs. assert (s = 2030%Z) by lia. subst s. reflexivity.
Defined.




(** C3 (as amended).  Every row of a returned table has exactly as many
    fields as the table has headings.  The frame is built only when the
    widest normalized row has exactly that many fields, or when there is no
    row: in every other case, wider or narrower, the call ends with a
    [ValueError].  A normalized row narrower than the widest one is not an
    error and is not truncated: it is padded with missing values at its end,
    and [team_batting_bref] then drops it, returning the normalized rows of
    full width unchanged and in order.  Fields meet headings by position
    only; nothing checks that a field stands under the heading it was
    rendered under. *)
Theorem rows_match_headings
        (get_soup : string -> node) (team : string) (a : Z) (e : option Z)
        (out : list string) :
  (forall df,
      Pandas.float64_exact a -> Pandas.float64_exact (last_season a e) ->
      team_batting_bref get_soup team (Some a) e = (out, Return df) ->
      exists st,
        team_loop get_soup team (team_url team) a (last_season a e) = (out, Return st)
        /\ (forall r, In r (rows df) -> List.length r = List.length (columns df))
        /\ (raw_data st = []
            \/ Pandas.width (raw_data st) = List.length (columns df))
        /\ rows df = filter (fun n => (List.length n =? List.length (columns df))%nat)
                       (raw_data st))
  /\ (forall df, season_batting_bref get_soup (Some a) e = (out, Return df) ->
        exists st,
          season_loop get_soup a (last_season a e) = (out, Return st)
          /\ (forall r, In r (rows df) ->
                List.length r = List.length (columns df)
                /\ exists n, In n (raw_data st)
                             /\ r = n ++ repeat VNone (List.length (columns df)
                                                       - List.length n))
          /\ (raw_data st = []
              \/ Pandas.width (raw_data st) = List.length (columns df)))
  /\ (forall st H,
        team_loop get_soup team (team_url team) a (last_season a e) = (out, Return st) ->
        headings st = Some H -> raw_data st <> [] ->
        Pandas.width (raw_data st) <> List.length (PyList.insert 2 (VStr "Year") H) ->
        exists msg,
          team_batting_bref get_soup team (Some a) e = (out, Raise (Exc ValueError msg)))
  /\ (forall st H,
        season_loop get_soup a (last_season a e) = (out, Return st) ->
        headings st = Some H -> raw_data st <> [] ->
        Pandas.width (raw_data st)
        <> List.length ([VStr "season"; VStr "team_abbrev"; VStr "team_name"]
                          ++ PyList.slice_from 1 H) ->
        exists msg,
          season_batting_bref get_soup (Some a) e = (out, Raise (Exc ValueError msg))).
Proof.
  split; [| split; [| split]].
  - intros df _ _ Hrun.
    destruct (team_loop_of_frame _ _ _ _ _ _ Hrun) as (st & Hloop & Hraw).
    exists st. split; [exact Hloop |].
    pose proof (team_Return _ _ _ _ _ _ Hrun) as (H & _ & _ & _ & _ & Hrows & _).
    split; [| split].
    + intros r Hr. rewrite Hrows in Hr. apply filter_In in Hr as [_ Hr].
      now apply Nat.eqb_eq.
    + rewrite (team_frame_of_loop _ _ _ _ _ _ Hloop) in Hrun.
      destruct (headings st) as [H' |]; [| discriminate].
      destruct (Pandas.new _ _) as [o [data | exn]] eqn:Hnew; [| discriminate].
      inversion Hrun; subst df. cbn [Pandas.dropna columns].
      pose proof (new_Return_width _ _ _ _ Hnew) as Hw.
      apply new_Return in Hnew. destruct Hnew as (_ & -> & _). exact Hw.
    + rewrite Hraw. exact Hrows.
  - intros df Hrun.
    destruct (season_loop_of_frame _ _ _ _ _ Hrun)
      as (st & H & Hloop & HH & Hcols & Hrows & Hle).
    rewrite Forall_forall in Hle.
    exists st. split; [exact Hloop |]. split.
    + intros r Hr. rewrite Hrows in Hr. apply in_map_iff in Hr.
      destruct Hr as (n & <- & Hn). split.
      * apply pad_length. now apply Hle.
      * exists n. split; [exact Hn | reflexivity].
    + rewrite (season_frame_of_loop _ _ _ _ _ Hloop), HH in Hrun.
      destruct (Pandas.new _ _) as [o [data | exn]] eqn:Hnew; [| discriminate].
      inversion Hrun; subst df.
      pose proof (new_Return_width _ _ _ _ Hnew) as Hw.
      apply new_Return in Hnew. destruct Hnew as (_ & -> & _). exact Hw.
  - intros st H Hloop HH Hne Hw.
    rewrite (team_frame_of_loop _ _ _ _ _ _ Hloop), HH.
    destruct (new_mismatch _ _ Hne Hw) as (msg & ->). eauto.
  - intros st H Hloop HH Hne Hw.
    rewrite (season_frame_of_loop _ _ _ _ _ Hloop), HH.
    destruct (new_mismatch _ _ Hne Hw) as (msg & ->). eauto.
Qed.

Lemma rows_match_headings_witness :
  (exists df st,
      team_batting_bref Sample.team_site "NYY" (Some 2019%Z) None
      = (["Getting Batting Data: 2019 NYY"], Return df)
      /\ team_loop Sample.team_site "NYY" (team_url "NYY") 2019 2019
         = (["Getting Batting Data: 2019 NYY"], Return st)
      /\ List.length (raw_data st) = 5
      /\ rows df = filter (fun n => (List.length n =? List.length (columns df))%nat)
                     (raw_data st))
  /\ (exists df st,
         season_batting_bref Sample.league_site (Some 2020%Z) None
         = (["Getting per-team batting data: 2020"], Return df)
         /\ season_loop Sample.league_site 2020 2020
            = (["Getting per-team batting data: 2020"], Return st)
         /\ (raw_data st = []
             \/ Pandas.width (raw_data st) = List.length (columns df)))
  /\ (exists msg,
         team_batting_bref Sample.header_only_team_site "NYY" (Some 2019%Z) None
         = (["Getting Batting Data: 2019 NYY"], Raise (Exc ValueError msg)))
  /\ (exists msg,
         season_batting_bref Sample.narrow_league_site (Some 2020%Z) None
         = (["Getting per-team batting data: 2020"], Raise (Exc ValueError msg))).
Proof.
  assert (Hexact : Pandas.float64_exact 2019) by (unfold Pandas.float64_exact; lia).
  split; [| split; [| split]].
  - eexists.
    destruct (proj1 (rows_match_headings Sample.team_site "NYY" 2019 None
                       ["Getting Batting Data: 2019 NYY"]) _ Hexact Hexact eq_refl)
      as (st & Hloop & _ & _ & Hrows).
    exists st. split; [reflexivity |]. split; [exact Hloop |]. split; [| exact Hrows].
    vm_compute in Hloop. inversion Hloop. reflexivity.
  - eexists.
    destruct (proj1 (proj2 (rows_match_headings Sample.league_site "" 2020 None
                              ["Getting per-team batting data: 2020"])) _ eq_refl)
      as (st & Hloop & _ & Hw).
    exists st. split; [reflexivity |]. split; [exact Hloop | exact Hw].
  - refine (proj1 (proj2 (proj2 (rows_match_headings Sample.header_only_team_site "NYY"
                                   2019 None ["Getting Batting Data: 2019 NYY"])))
              {| raw_data := [[VInt 2019]];
                 headings := Some [VStr "Pos"; VStr "Name"] |}
              [VStr "Pos"; VStr "Name"] eq_refl eq_refl _ _).
    + discriminate.
    + simpl. lia.
  - refine (proj2 (proj2 (proj2 (rows_match_headings Sample.narrow_league_site "" 2020
                                   None ["Getting per-team batting data: 2020"])))
              {| raw_data := [[VInt 2020; VStr "ARI"; VStr "Arizona Diamondbacks";
                               VStr "60"]];
                 headings := Some [VStr "team_name"; VStr "G"; VStr "R"] |}
              [VStr "team_name"; VStr "G"; VStr "R"] eq_refl eq_refl _ _).
    + discriminate.
    + simpl. lia.
Defined.

(** C3 (as stated) fails twice.  The header row of a team table yields the
    normalized row [[2019]], one field against five headings, and the call
    neither fails nor keeps the row: it is discarded without a trace.  And a
    row of full length need not be aligned: a totals row with one cell more
    than the player rows loses its "Team Totals" cell to the filter and is
    returned with the cell rendered under the third raw heading standing
    under ["Name"], the second. *)
Lemma rows_match_headings_counterexample :
  (exists out df n,
      team_batting_bref Sample.team_site "NYY" (Some 2019%Z) None = (out, Return df)
      /\ In n (team_rows Sample.team_site (team_url "NYY") 2019)
      /\ List.length n <> List.length (columns df)
      /\ ~ In n (rows df)
      /\ ~ In (Pandas.pad (List.length (columns df)) n) (rows df))
  /\ (exists out df row,
         team_batting_bref Sample.shifted_team_site "NYY" (Some 2019%Z) None
         = (out, Return df)
         /\ In row (team_trs Sample.shifted_team_site (team_url "NYY") 2019)
         /\ In (team_row 2019 row) (rows df)
         /\ nth_error (columns df) 1 = Some (VStr "Name")
         /\ nth_error (team_cells_rendered row) 1 = Some "Team Totals"
         /\ nth_error (team_cells_rendered row) 2 = Some "29.1"
         /\ nth_error (team_row 2019 row) 1 = Some (VStr "29.1")).
Proof.
  split.
  - eexists _, _, [VInt 2019%Z].
    split; [vm_compute; reflexivity |]. cbn [columns rows].
    split; [vm_compute; auto |]. split; [simpl; lia |].
    split; intros H; vm_compute in H; decompose [or] H; try discriminate; auto.
  - eexists _, _,
      (Sample.tr [Sample.td ""; Sample.td "Team Totals"; Sample.td "29.1";
                  Sample.td "162"; Sample.td "6245"]).
    split; [vm_compute; reflexivity |]. cbn [columns rows].
    split; [vm_compute; auto |]. split; [vm_compute; auto |].
    repeat split; reflexivity.
Qed.

(** C4 (as amended). When some season of a [team_batting_bref] call has a
    page without a sortable statistics table, the call stops at the first
    such season with the [IndexError] of indexing the empty list of tables:
    the progress lines up to that season are printed and no table, partial
    or not, is returned.  The error names neither season nor team. *)
Theorem team_missing_table_raises
        (get_soup : string -> node) (team : string) (a : Z) (e : option Z) (s : Z) :
  (a <= s <= last_season a e)%Z ->
  team_tables get_soup (team_url team) s = [] ->
  exists s0,
    (a <= s0 <= s)%Z
    /\ team_tables get_soup (team_url team) s0 = []
    /\ team_batting_bref get_soup team (Some a) e
       = (map (team_line team) (PyList.range a (s0 + 1)),
          Raise (Exc IndexError "list index out of range")).
Proof.
  intros Hs Hnone.
  set (p := fun y => match team_tables get_soup (team_url team) y with
                     | [] => true
                     | _ => false
                     end).
  destruct (first_season p a (last_season a e + 1) s) as (s0 & Hs0 & Hp0 & Hfirst).
  { lia. }
  { unfold p. now rewrite Hnone. }
  exists s0. split; [exact Hs0 |].
  assert (H0 : team_tables get_soup (team_url team) s0 = []).
  { unfold p in Hp0. now destruct (team_tables get_soup (team_url team) s0). }
  split; [exact H0 |].
  unfold team_batting_bref, team_loop. fold (team_url team). fold (last_season a e).
  rewrite (range_split a (last_season a e + 1) s0) by lia.
  rewrite team_for_each_Raise.
  - cbn [bind]. f_equal. rewrite (range_split a (s0 + 1) s0) by lia.
    rewrite (range_empty (s0 + 1) (s0 + 1)) by lia. reflexivity.
  - apply Forall_forall. intros s' Hs'. apply range_In in Hs'.
    specialize (Hfirst s' Hs'). unfold p in Hfirst.
    destruct (team_tables get_soup (team_url team) s'); [discriminate |].
    simpl. discriminate.
  - now rewrite H0.
Qed.

Lemma team_missing_table_raises_witness :
  exists s0,
    (2019 <= s0 <= 2021)%Z
    /\ team_tables Sample.team_site (team_url "NYY") s0 = []
    /\ team_batting_bref Sample.team_site "NYY" (Some 2019%Z) (Some 2021%Z)
       = (map (team_line "NYY") (PyList.range 2019 (s0 + 1)),
          Raise (Exc IndexError "list index out of range")).
Proof.
  apply (team_missing_table_raises Sample.team_site "NYY" 2019 (Some 2021%Z) 2021).
  - simpl. lia.
  - reflexivity.
Defined.

(** C4 (as stated) fails: for "NYY", 2019 to 2021, the page
    of 2021 has no table, and the exception raised is not a [TableNotFound]
    whose message names the season and the team. *)
Lemma team_missing_table_counterexample :
  team_tables Sample.team_site (team_url "NYY") 2021 = []
  /\ ~ (exists out exn,
          team_batting_bref Sample.team_site "NYY" (Some 2019%Z) (Some 2021%Z)
          = (out, Raise exn)
          /\ class_name (exc_type exn) = "TableNotFound"
          /\ Str.contains (Str.of_int 2021) (exc_msg exn) = true
          /\ Str.contains "NYY" (exc_msg exn) = true).
Proof.
  split; [reflexivity |].
  intros (out & exn & Hrun & Hclass & _).
  vm_compute in Hrun. inversion Hrun; subst. discriminate.
Qed.

(** C5 (as amended). In every table [team_batting_bref] returns, no cell
    holds a ['*'] or a ['#']. *)
Theorem team_cells_have_no_decoration
        (get_soup : string -> node) (team : string) (a : Z) (e : option Z)
        (out : list string) (df : DataFrame) :
  team_batting_bref get_soup team (Some a) e = (out, Return df) ->
  forall r c, In r (rows df) -> In (VStr c) r ->
    Str.occurs "*" c = false /\ Str.occurs "#" c = false.
Proof.
  intros Hrun r c Hr Hc.
  destruct (team_rows_of_frame _ _ _ _ _ _ _ Hrun Hr) as (_ & s & row & _ & ->).
  apply team_row_In in Hc. destruct Hc as [Hc | (c' & Hc & Hin)]; [discriminate |].
  inversion Hc; subst c'. apply team_cells_clean in Hin. tauto.
Qed.

Lemma team_cells_have_no_decoration_witness :
  Str.occurs "*" "Kyle Higashioka" = false /\ Str.occurs "#" "Kyle Higashioka" = false.
Proof.
  refine (team_cells_have_no_decoration Sample.team_site "NYY" 2020 None
            ["Getting Batting Data: 2020 NYY"]
            {| columns := [VStr "Pos"; VStr "Name"; VStr "Year"; VStr "Age"; VStr "G"];
               rows := [[VStr "C"; VStr "Kyle Higashioka"; VInt 2020; VStr "28"; VStr "111"];
                        [VStr "1B"; VStr "Mike Ford"; VInt 2020; VStr "30"; VStr "150"]] |}
            eq_refl
            [VStr "C"; VStr "Kyle Higashioka"; VInt 2020; VStr "28"; VStr "111"]
            "Kyle Higashioka" _ _).
  - simpl. auto.
  - simpl. auto.
Defined.

(** C5 (as stated) fails for [season_batting_bref], which does not strip
    decoration characters: a label ["Boston Red Sox*"] and a cell ["829#"]
    come out as they are. *)
Lemma season_decoration_counterexample :
  exists out df r c,
    season_batting_bref Sample.marked_league_site (Some 2021%Z) None = (out, Return df)
    /\ In r (rows df) /\ In (VStr c) r
    /\ ~ (Str.occurs "*" c = false /\ Str.occurs "#" c = false).
Proof.
  eexists _, _, [VInt 2021; VStr "BOS"; VStr "Boston Red Sox*"; VStr "162"; VStr "829#"],
    "829#".
  split; [vm_compute; reflexivity |].
  split; [now left |]. split; [simpl; tauto |].
  intros [_ H]. vm_compute in H. discriminate.
Qed.

(** C6 (as amended). [team_batting_bref] removes every cell that contains
    ['Totals'], ['NL teams'] or ['AL teams'], so no field of a row it returns
    is "Team Totals", "NL teams" or "AL teams"; [season_batting_bref] skips
    the rows labelled "League Average", so the team-name field (the third) of
    a row it returns is never "League Average". *)
Theorem aggregate_markers_filtered
        (get_soup : string -> node) (team : string) (a : Z) (e : option Z)
        (out : list string) (df : DataFrame) :
  (team_batting_bref get_soup team (Some a) e = (out, Return df) ->
   forall r c, In r (rows df) -> In (VStr c) r ->
     (Str.contains "Totals" c = false /\ Str.contains "NL teams" c = false
      /\ Str.contains "AL teams" c = false)
     /\ c <> "Team Totals" /\ c <> "NL teams" /\ c <> "AL teams")
  /\ (season_batting_bref get_soup (Some a) e = (out, Return df) ->
      forall r, In r (rows df) ->
        exists name, nth_error r 2 = Some (VStr name) /\ name <> "League Average").
Proof.
  split.
  - intros Hrun r c Hr Hc.
    destruct (team_rows_of_frame _ _ _ _ _ _ _ Hrun Hr) as (_ & s & row & _ & ->).
    apply team_row_In in Hc. destruct Hc as [Hc | (c' & Hc & Hin)]; [discriminate |].
    inversion Hc; subst c'. apply team_cells_clean in Hin.
    apply keep_col_markers. tauto.
  - intros Hrun r Hr.
    destruct (league_row_prefix _ _ _ _ _ _ Hrun Hr) as (s & ab & name & _ & Hne & Hpre).
    exists name. split; [| exact Hne].
    rewrite <- (firstn_skipn 3 r), Hpre. reflexivity.
Qed.

Lemma aggregate_markers_filtered_witness :
  (forall r c,
      In r (rows {| columns := [VStr "Pos"; VStr "Name"; VStr "Year"; VStr "Age"; VStr "G"];
                    rows := [[VStr "C"; VStr "Gary Sanchez"; VInt 2019; VStr "28"; VStr "111"];
                             [VStr "1B"; VStr "Luke Voit"; VInt 2019; VStr "30"; VStr "150"]] |}) ->
      In (VStr c) r ->
      (Str.contains "Totals" c = false /\ Str.contains "NL teams" c = false
       /\ Str.contains "AL teams" c = false)
      /\ c <> "Team Totals" /\ c <> "NL teams" /\ c <> "AL teams")
  /\ (forall r,
         In r (rows {| columns := [VStr "season"; VStr "team_abbrev"; VStr "team_name";
                                   VStr "G"; VStr "R"];
                       rows := [[VInt 2020; VStr "ARI"; VStr "Arizona Diamondbacks";
                                 VStr "60"; VStr "269"];
                                [VInt 2020; VStr "NYY"; VStr "New York Yankees";
                                 VStr "60"; VStr "315"]] |}) ->
         exists name, nth_error r 2 = Some (VStr name) /\ name <> "League Average").
Proof.
  split.
  - exact (proj1 (aggregate_markers_filtered Sample.team_site "NYY" 2019 None
                    ["Getting Batting Data: 2019 NYY"] _) eq_refl).
  - exact (proj2 (aggregate_markers_filtered Sample.league_site "" 2020 None
                    ["Getting per-team batting data: 2020"] _) eq_refl).
Defined.

(** C6 (as stated) fails on both entry points: [season_batting_bref] keeps a
    body row labelled "Team Totals", and [team_batting_bref] keeps a row
    whose name cell is "League Average". *)
Lemma aggregate_markers_counterexample :
  (exists out df r,
      season_batting_bref Sample.marked_league_site (Some 2021%Z) None = (out, Return df)
      /\ In r (rows df) /\ nth_error r 2 = Some (VStr "Team Totals"))
  /\ (exists out df r,
         team_batting_bref Sample.average_team_site "NYY" (Some 2019%Z) None
         = (out, Return df)
         /\ In r (rows df) /\ nth_error r 1 = Some (VStr "League Average")).
Proof.
  split.
  - eexists _, _, [VInt 2021; VStr "MLB"; VStr "Team Totals"; VStr "4858"; VStr "22010"].
    split; [vm_compute; reflexivity |]. split; [simpl; tauto | reflexivity].
  - eexists _, _, [VStr "C"; VStr "League Average"; VInt 2019; VStr "28"; VStr "111"].
    split; [vm_compute; reflexivity |]. split; [simpl; tauto | reflexivity].
Qed.

(** C7. The rows of a returned table belong to seasons of the requested
    range only and come in ascending season order; the season of a row is
    its field in the ["Year"] column of a team table and in the ["season"]
    column of a league table.  The ["Year"] column of a team table is stored
    as float64 once a short row was padded, so the team half is stated for
    seasons that float64 holds exactly. *)
Theorem rows_in_season_order
        (get_soup : string -> node) (team : string) (a : Z) (e : option Z)
        (out : list string) (df : DataFrame) :
  (Pandas.float64_exact a -> Pandas.float64_exact (last_season a e) ->
   team_batting_bref get_soup team (Some a) e = (out, Return df) ->
   nth_error (columns df) (year_index df) = Some (VStr "Year")
   /\ (forall r, In r (rows df) ->
         exists s, nth_error r (year_index df) = Some (VInt s)
                   /\ (a <= s <= last_season a e)%Z)
   /\ (forall i j r1 r2 s1 s2,
         i < j -> nth_error (rows df) i = Some r1 -> nth_error (rows df) j = Some r2 ->
         nth_error r1 (year_index df) = Some (VInt s1) ->
         nth_error r2 (year_index df) = Some (VInt s2) ->
         (s1 <= s2)%Z))
  /\ (season_batting_bref get_soup (Some a) e = (out, Return df) ->
      nth_error (columns df) 0 = Some (VStr "season")
      /\ (forall r, In r (rows df) ->
            exists s, nth_error r 0 = Some (VInt s) /\ (a <= s <= last_season a e)%Z)
      /\ (forall i j r1 r2 s1 s2,
            i < j -> nth_error (rows df) i = Some r1 -> nth_error (rows df) j = Some r2 ->
            nth_error r1 0 = Some (VInt s1) -> nth_error r2 0 = Some (VInt s2) ->
            (s1 <= s2)%Z)).
Proof.
  split.
  - intros _ _ Hrun. split; [| split].
    + now apply (team_year_column _ _ _ _ _ _ Hrun).
    + now apply (team_year_column _ _ _ _ _ _ Hrun).
    + apply season_le_order.
      apply team_Return in Hrun. destruct Hrun as (H & _ & _ & _ & _ & Hrows & _).
      rewrite Hrows, filter_concat, map_map.
      apply blocks_sorted with (season_of := fun r s =>
        nth_error r (year_index df) = Some (VInt s))
        (seasons := PyList.range a (last_season a e + 1)).
      * apply range_sorted.
      * apply Forall2_map_self. intros s _. apply Forall_forall. intros r Hr.
        apply filter_In in Hr as [Hr Hlen]. apply Nat.eqb_eq in Hlen.
        unfold team_rows in Hr.
        destruct (nth_error (team_tables get_soup (team_url team) s) 0);
          [| destruct Hr].
        apply in_map_iff in Hr. destruct Hr as (row & <- & _).
        now apply team_year_field.
  - intros Hrun. split; [| split].
    + apply season_Return in Hrun. destruct Hrun as (H & blocks & _ & -> & _).
      reflexivity.
    + intros r Hr.
      destruct (league_row_prefix _ _ _ _ _ _ Hrun Hr) as (s & ab & name & Hs & _ & Hpre).
      exists s. split; [| exact Hs].
      rewrite <- (firstn_skipn 3 r), Hpre. reflexivity.
    + apply season_le_order.
      apply season_Return in Hrun.
      destruct Hrun as (H & blocks & _ & _ & HF & Hrows & _). rewrite Hrows.
      apply StronglySorted_map with
        (R := fun r1 r2 => exists s1 s2,
                  league_row_in get_soup r1 s1 /\ league_row_in get_soup r2 s2
                  /\ (s1 <= s2)%Z).
      * intros r1 r2 (s1 & s2 & (row1 & _ & H1) & (row2 & _ & H2) & Hle).
        exists s1, s2. repeat split; auto; apply pad_nth.
        -- destruct H1 as (? & ? & ? & ? & _ & _ & _ & _ & _ & ->). reflexivity.
        -- destruct H2 as (? & ? & ? & ? & _ & _ & _ & _ & _ & ->). reflexivity.
      * apply blocks_sorted with (seasons := PyList.range a (last_season a e + 1));
          [apply range_sorted | exact HF].
Qed.

Lemma rows_in_season_order_witness :
  exists df,
    team_batting_bref Sample.team_site "NYY" (Some 2019%Z) (Some 2020%Z)
    = (["Getting Batting Data: 2019 NYY"; "Getting Batting Data: 2020 NYY"], Return df)
    /\ List.length (rows df) = 4
    /\ (forall r, In r (rows df) ->
          exists s, nth_error r (year_index df) = Some (VInt s) /\ (2019 <= s <= 2020)%Z)
    /\ (forall r, In r (rows {| columns := [VStr "season"; VStr "team_abbrev";
                                           VStr "team_name"; VStr "G"; VStr "R"];
                               rows := [[VInt 2020; VStr "ARI"; VStr "Arizona Diamondbacks";
                                         VStr "60"; VStr "269"];
                                        [VInt 2020; VStr "NYY"; VStr "New York Yankees";
                                         VStr "60"; VStr "315"]] |}) ->
          exists s, nth_error r 0 = Some (VInt s) /\ (2019 <= s <= 2021)%Z).
Proof.
  assert (H2019 : Pandas.float64_exact 2019) by (unfold Pandas.float64_exact; lia).
  assert (H2020 : Pandas.float64_exact 2020) by (unfold Pandas.float64_exact; lia).
  eexists. split; [vm_compute; reflexivity |]. split; [reflexivity |]. split.
  - exact (proj1 (proj2 (proj1 (rows_in_season_order Sample.team_site "NYY" 2019
                                  (Some 2020%Z) _ _) H2019 H2020 eq_refl))).
  - exact (proj1 (proj2 (proj2 (rows_in_season_order Sample.league_site "" 2019
                                  (Some 2021%Z)
                                  ["Getting per-team batting data: 2019";
                                   "Table not found for 2019";
                                   "Getting per-team batting data: 2020";
                                   "Getting per-team batting data: 2021";
                                   "Table not found for 2021"] _) eq_refl))).
Defined.

(** C8 (as amended).  [team_batting_bref] inserts ["Year"] into the heading
    set and the season into every row with [insert(2, ...)]: the season is a
    row's third field and ["Year"] the third column whenever the table has
    at least three columns.  [season_batting_bref] puts [season],
    [team_abbrev], [team_name] in place of the first raw heading, and every
    row it returns starts with the season, the abbreviation and the label of
    a body row, followed by that row's trimmed cells; the abbreviation is
    the third piece of the link target split at ['/'], which for a
    root-relative target is its second path segment.  The team half is
    stated for seasons that the float64 ["Year"] column holds exactly. *)
Theorem derived_columns_positions
        (get_soup : string -> node) (team : string) (a : Z) (e : option Z)
        (out : list string) (df : DataFrame) :
  (Pandas.float64_exact a -> Pandas.float64_exact (last_season a e) ->
   team_batting_bref get_soup team (Some a) e = (out, Return df) ->
   (exists H, columns df = PyList.insert 2 (VStr "Year") H)
   /\ (forall r, In r (rows df) ->
         exists s row, (a <= s <= last_season a e)%Z
                       /\ r = PyList.insert 2 (VInt s) (map VStr (team_cells row)))
   /\ (3 <= List.length (columns df) ->
       nth_error (columns df) 2 = Some (VStr "Year")
       /\ forall r, In r (rows df) ->
            exists s, (a <= s <= last_season a e)%Z /\ nth_error r 2 = Some (VInt s)))
  /\ (season_batting_bref get_soup (Some a) e = (out, Return df) ->
      (exists H,
          league_first_headings get_soup (PyList.range a (last_season a e + 1)) = Some H
          /\ columns df = [VStr "season"; VStr "team_abbrev"; VStr "team_name"]
                            ++ PyList.slice_from 1 H)
      /\ forall r, In r (rows df) ->
           exists s row th a_tag href team_abbrev,
             (a <= s <= last_season a e)%Z
             /\ In row (league_body_rows get_soup s)
             /\ Soup.find "th" [("data-stat", "team_name")] row = Some th
             /\ Soup.find "a" [] th = Some a_tag
             /\ Soup.get "href" a_tag = Some href
             /\ nth_error (Str.split "/" href) 2 = Some team_abbrev
             /\ firstn (3 + List.length (Soup.find_all "td" [] row)) r
                = [VInt s; VStr team_abbrev; VStr (Str.strip (Soup.text th))]
                    ++ map (fun td => VStr (Str.strip (Soup.text td)))
                         (Soup.find_all "td" [] row))
  /\ (forall seg1 seg2 tail,
        Str.occurs "/" seg1 = false -> Str.occurs "/" seg2 = false ->
        tail = EmptyString \/ (exists rest, tail = String "/" rest) ->
        nth_error (Str.split "/" ("/" ++ seg1 ++ "/" ++ seg2 ++ tail)) 2 = Some seg2).
Proof.
  split; [| split].
  - intros _ _ Hrun. split; [| split].
    + apply team_Return in Hrun. destruct Hrun as (H & _ & _ & _ & Hcols & _). eauto.
    + intros r Hr.
      destruct (team_rows_of_frame _ _ _ _ _ _ _ Hrun Hr) as (_ & s & row & Hs & ->).
      exists s, row. split; [exact Hs | apply team_row_cells].
    + intros Hwide.
      destruct (team_year_column _ _ _ _ _ _ Hrun) as (Hyear & Hseason).
      assert (Hix : year_index df = 2) by (unfold year_index; lia).
      rewrite Hix in Hyear, Hseason. split; [exact Hyear |].
      intros r Hr. destruct (Hseason r Hr) as (s & Hnth & Hs). eauto.
  - intros Hrun. split.
    + apply season_Return in Hrun. destruct Hrun as (H & blocks & HH & Hcols & _). eauto.
    + intros r Hr.
      destruct (league_rows_of_frame _ _ _ _ _ _ Hrun Hr)
        as (s & r0 & Hs & (row & Hrow & Hof) & _ & ->).
      destruct Hof as (th & a_tag & href & ab & Hth & _ & Ha & Hhref & Hab & ->).
      exists s, row, th, a_tag, href, ab. repeat split; auto; try lia.
      rewrite firstn_pad.
      * rewrite firstn_all2; [reflexivity |].
        rewrite length_app, length_map. simpl. lia.
      * rewrite length_app, length_map. simpl. lia.
  - apply second_path_segment.
Qed.

Lemma derived_columns_positions_witness :
  (nth_error [VStr "Pos"; VStr "Name"; VStr "Year"; VStr "Age"; VStr "G"] 2
   = Some (VStr "Year")
   /\ forall r,
        In r [[VStr "C"; VStr "Gary Sanchez"; VInt 2019; VStr "28"; VStr "111"];
              [VStr "1B"; VStr "Luke Voit"; VInt 2019; VStr "30"; VStr "150"]] ->
        exists s, (2019 <= s <= 2019)%Z /\ nth_error r 2 = Some (VInt s))
  /\ (exists H,
         league_first_headings Sample.league_site (PyList.range 2020 (2020 + 1)) = Some H
         /\ [VStr "season"; VStr "team_abbrev"; VStr "team_name"; VStr "G"; VStr "R"]
            = [VStr "season"; VStr "team_abbrev"; VStr "team_name"]
                ++ PyList.slice_from 1 H)
  /\ nth_error (Str.split "/" "/teams/ARI/2020.shtml") 2 = Some "ARI".
Proof.
  assert (H2019 : Pandas.float64_exact 2019) by (unfold Pandas.float64_exact; lia).
  split; [| split].
  - refine (proj2 (proj2 (proj1 (derived_columns_positions Sample.team_site "NYY" 2019
                                   None ["Getting Batting Data: 2019 NYY"]
                                   {| columns := [VStr "Pos"; VStr "Name"; VStr "Year";
                                                  VStr "Age"; VStr "G"];
                                      rows := [[VStr "C"; VStr "Gary Sanchez"; VInt 2019;
                                                VStr "28"; VStr "111"];
                                               [VStr "1B"; VStr "Luke Voit"; VInt 2019;
                                                VStr "30"; VStr "150"]] |})
                            H2019 H2019 eq_refl)) _).
    simpl. lia.
  - exact (proj1 (proj1 (proj2 (derived_columns_positions Sample.league_site "" 2020
                                  None ["Getting per-team batting data: 2020"]
                                  {| columns := [VStr "season"; VStr "team_abbrev";
                                                 VStr "team_name"; VStr "G"; VStr "R"];
                                     rows := [[VInt 2020; VStr "ARI";
                                               VStr "Arizona Diamondbacks";
                                               VStr "60"; VStr "269"];
                                              [VInt 2020; VStr "NYY";
                                               VStr "New York Yankees";
                                               VStr "60"; VStr "315"]] |}))
                    eq_refl)).
  - refine (proj2 (proj2 (derived_columns_positions Sample.league_site "" 2020 None []
                            {| columns := []; rows := [] |}))
              "teams" "ARI" "/2020.shtml" eq_refl eq_refl _).
    right. exists "2020.shtml". reflexivity.
Defined.

(** C8 (as stated) fails twice.  On a table with a single header cell
    ["Year"] is the first column and the season the first field, not the
    third.  On a league row whose link target is an absolute URL the
    abbreviation is the host name, not the second path segment ["ARI"]. *)
Lemma derived_columns_counterexample :
  (exists out df,
      team_batting_bref Sample.tiny_team_site "NYY" (Some 2019%Z) None = (out, Return df)
      /\ columns df = [VStr "Year"]
      /\ rows df = [[VInt 2019]; [VInt 2019]]
      /\ nth_error (columns df) 2 <> Some (VStr "Year")
      /\ forall r, In r (rows df) -> nth_error r 2 <> Some (VInt 2019))
  /\ (exists out df,
         season_batting_bref Sample.absolute_link_site (Some 2020%Z) None
         = (out, Return df)
         /\ rows df = [[VInt 2020; VStr "www.baseball-reference.com";
                        VStr "Arizona Diamondbacks"; VStr "60"; VStr "269"]]).
Proof.
  split.
  - eexists _, _. split; [vm_compute; reflexivity |]. cbn [columns rows].
    repeat split; try discriminate.
    intros r [<- | [<- | []]]; discriminate.
  - eexists _, _. split; vm_compute; reflexivity.
Qed.

(** C9. Omitting [end_season] is the same call as passing
    [end_season = start_season], for both entry points: the same lines are
    printed and the same table or exception results. *)
Theorem end_season_defaults_to_start
        (get_soup : string -> node) (team : string) (s : Z) :
  team_batting_bref get_soup team (Some s) None
  = team_batting_bref get_soup team (Some s) (Some s)
  /\ season_batting_bref get_soup (Some s) None
     = season_batting_bref get_soup (Some s) (Some s).
Proof. split; reflexivity. Qed.

(** C10. With [start_season] strictly greater than [end_season] the season
    loop of either entry point runs zero times (nothing is printed or
    fetched, [raw_data] stays empty and no headings are established) and the
    call raises the [AssertionError] of [assert headings is not None]: no
    table, not even an empty one, is returned. *)
Theorem empty_range_raises
        (get_soup : string -> node) (team : string) (a e : Z) :
  (e < a)%Z ->
  (team_loop get_soup team (team_url team) a e
   = ([], Return {| raw_data := []; headings := None |})
   /\ team_batting_bref get_soup team (Some a) (Some e)
      = ([], Raise (Exc AssertionError "")))
  /\ (season_loop get_soup a e
      = ([], Return {| raw_data := []; headings := None |})
      /\ season_batting_bref get_soup (Some a) (Some e)
         = ([], Raise (Exc AssertionError ""))).
Proof.
  intros Hlt.
  unfold team_batting_bref, season_batting_bref, team_loop, season_loop.
  rewrite range_empty by lia. repeat split; reflexivity.
Qed.

Lemma empty_range_raises_witness :
  (2019 < 2020)%Z
  /\ team_batting_bref Sample.team_site "NYY" (Some 2020%Z) (Some 2019%Z)
     = ([], Raise (Exc AssertionError ""))
  /\ season_batting_bref Sample.league_site (Some 2020%Z) (Some 2019%Z)
     = ([], Raise (Exc AssertionError "")).
Proof.
  assert (H : (2019 < 2020)%Z) by lia.
  pose proof (empty_range_raises Sample.team_site "NYY" 2020 2019 H) as HT.
  pose proof (empty_range_raises Sample.league_site "NYY" 2020 2019 H) as HS.
  split; [exact H |]. split; [exact (proj2 (proj1 HT)) | exact (proj2 (proj2 HS))].
Defined.

(** ** Further properties *)

(** *** Loops, ranges and frames *)

Lemma bind_Raise {A B} (m : M A) (k : A -> M B) out exn :
  bind m k = (out, Raise exn) ->
  m = (out, Raise exn)
  \/ exists o1 a o2, m = (o1, Return a) /\ k a = (o2, Raise exn) /\ out = o1 ++ o2.
Proof.
  destruct m as [o1 [a | e]]; simpl.
  - destruct (k a) as [o2 r] eqn:Hk. intros H. inversion H; subst.
    right. exists o1, a, o2. auto.
  - intros H. inversion H; subst. now left.
Qed.

Lemma for_each_app {S X} (xs ys : list X) (body : S -> X -> M S) st :
  for_each (xs ++ ys) body st
  = bind (for_each xs body st) (fun st' => for_each ys body st').
Proof.
  revert st. induction xs as [| x xs IH]; intros st; simpl.
  - now destruct (for_each ys body st).
  - destruct (body st x) as [o [st1 | e]]; simpl; [| reflexivity].
    rewrite IH. destruct (for_each xs body st1) as [o1 [st2 | e]]; simpl.
    + destruct (for_each ys body st2) as [o2 r]. now rewrite app_assoc.
    + reflexivity.
Qed.

Lemma range_app a m b :
  (a <= m <= b)%Z -> PyList.range a b = PyList.range a m ++ PyList.range m b.
Proof.
  intros H. destruct (Z.eq_dec m b) as [-> | Hne].
  - rewrite (range_empty b b) by lia. now rewrite app_nil_r.
  - rewrite (range_split a b m) by lia. now rewrite (range_cons m b) by lia.
Qed.


(** The frame builder succeeds exactly on an empty list of rows or on rows
    whose widest has as many fields as there are headings. *)
Lemma new_ok data cols :
  data = [] \/ Pandas.width data = List.length cols ->
  Pandas.new data cols
  = ([], Return {| columns := cols; rows := map (Pandas.pad (List.length cols)) data |}).
Proof.
  intros H. unfold Pandas.new. destruct data as [| r data]; [reflexivity |].
  destruct H as [H | H]; [discriminate |].
  rewrite <- H, Nat.eqb_refl. reflexivity.
Qed.

Lemma new_Raise data cols out exn :
  Pandas.new data cols = (out, Raise exn) ->
  out = [] /\ exc_type exn = ValueError
  /\ data <> [] /\ Pandas.width data <> List.length cols.
Proof.
  unfold Pandas.new. destruct data as [| r data]; [discriminate |].
  destruct (Nat.eqb_spec (List.length cols) (Pandas.width (r :: data))) as [Heq | Hne];
    [discriminate |].
  intros H. inversion H; subst. repeat split; auto. discriminate.
Qed.

Lemma width_le_Forall data w :
  Pandas.width data <= w -> Forall (fun row => List.length row <= w) data.
Proof.
  intros H. apply Forall_forall. intros r Hr. pose proof (width_ge _ _ Hr). lia.
Qed.

(** *** team_batting_bref *)

(** When every season has a table the loop runs to its end. *)
Lemma team_for_each_ok get_soup team url seasons : forall st,
  Forall (fun s => nth_error (team_tables get_soup url s) 0 <> None) seasons ->
  for_each seasons (team_step get_soup team url) st
  = (map (team_line team) seasons,
     Return {| raw_data :=
                 raw_data st ++ List.concat (map (team_rows get_soup url) seasons);
               headings := match headings st with
                           | Some h => Some h
                           | None => team_first_headings get_soup url seasons
                           end |}).
Proof.
  induction seasons as [| s seasons IH]; intros st Hall.
  - cbn. rewrite app_nil_r. destruct st as [raw [h |]]; reflexivity.
  - apply Forall_cons_iff in Hall as [Hs Hall]. cbn [for_each].
    rewrite team_step_eq.
    destruct (nth_error (team_tables get_soup url s) 0) as [table |] eqn:Htab;
      [| congruence].
    rewrite bind_Return_eq, IH by assumption. cbn [fst snd raw_data headings map app].
    assert (Hrows : team_rows get_soup url s
                    = map (team_row s) (Soup.find_all "tr" [] table))
      by (unfold team_rows; now rewrite Htab).
    cbn [List.concat]. rewrite Hrows, <- app_assoc.
    unfold team_first_headings. rewrite Htab. cbn [option_map].
    now destruct (headings st).
Qed.

Lemma team_first_headings_range get_soup url a b H :
  team_first_headings get_soup url (PyList.range a b) = Some H ->
  (a < b)%Z
  /\ exists table, nth_error (team_tables get_soup url a) 0 = Some table
                   /\ H = team_headings table.
Proof.
  intros HH. destruct (Z_lt_dec a b) as [Hlt | Hge].
  - split; [exact Hlt |]. rewrite range_cons in HH by lia.
    cbn [team_first_headings] in HH.
    destruct (nth_error (team_tables get_soup url a) 0) as [table |];
      cbn [option_map] in HH; [| discriminate].
    inversion HH. eauto.
  - rewrite range_empty in HH by lia. discriminate.
Qed.

Lemma team_headings_length table : List.length (team_headings table) <= 27.
Proof.
  unfold team_headings, PyList.slice. rewrite length_map.
  change (28 - 1) with 27. apply firstn_le_length.
Qed.

Lemma no_table_iff {A} (l : list A) : nth_error l 0 = None <-> l = [].
Proof. destruct l; simpl; split; congruence. Qed.

(** The loop of a call whose seasons all have a table. *)
Lemma team_loop_ok get_soup team a last table :
  (forall s, (a <= s <= last)%Z -> team_tables get_soup (team_url team) s <> []) ->
  nth_error (team_tables get_soup (team_url team) a) 0 = Some table ->
  (a <= last)%Z ->
  team_loop get_soup team (team_url team) a last
  = (map (team_line team) (PyList.range a (last + 1)),
     Return {| raw_data := team_raw get_soup team a last;
               headings := Some (team_headings table) |}).
Proof.
  intros Hall Htab Hle. unfold team_loop. rewrite team_for_each_ok.
  - cbn [raw_data headings app]. unfold team_raw.
    rewrite (range_cons a) at 3 by lia. cbn [team_first_headings].
    now rewrite Htab.
  - apply Forall_forall. intros s Hs. apply range_In in Hs.
    rewrite no_table_iff. apply Hall. lia.
Qed.

Lemma team_raw_notna get_soup team a last :
  Forall (fun row => existsb Pandas.isna row = false) (team_raw get_soup team a last).
Proof. apply team_rows_notna. Qed.


(** X2. When the range is not empty, every season's page has a table and
    the widest gathered row has as many fields as the first table gives
    headings plus one, [team_batting_bref] prints one progress line per
    season and returns the gathered rows of exactly that width, in order,
    under the first table's headings with ["Year"] inserted.  Stated for
    seasons that the float64 ["Year"] column holds exactly. *)
Theorem team_returns_exactly
        (get_soup : string -> node) (team : string) (a : Z) (e : option Z)
        (table : node) :
  Pandas.float64_exact a -> Pandas.float64_exact (last_season a e) ->
  (a <= last_season a e)%Z ->
  (forall s, (a <= s <= last_season a e)%Z ->
             team_tables get_soup (team_url team) s <> []) ->
  nth_error (team_tables get_soup (team_url team) a) 0 = Some table ->
  team_raw get_soup team a (last_season a e) = []
  \/ Pandas.width (team_raw get_soup team a (last_season a e))
     = S (List.length (team_headings table)) ->
  team_batting_bref get_soup team (Some a) e
  = (map (team_line team) (PyList.range a (last_season a e + 1)),
     Return {| columns := PyList.insert 2 (VStr "Year") (team_headings table);
               rows := filter (fun r => (List.length r
                                         =? S (List.length (team_headings table)))%nat)
                         (team_raw get_soup team a (last_season a e)) |}).
Proof.
  intros _ _ Hle Hall Htab Hwidth.
  rewrite (team_frame_of_loop _ _ _ _ _ _ (team_loop_ok _ _ _ _ _ Hall Htab Hle)).
  cbn [headings raw_data]. rewrite new_ok by (now rewrite insert_length).
  unfold Pandas.dropna. cbn [columns rows]. rewrite insert_length.
  rewrite dropna_padded; [reflexivity | apply team_raw_notna |].
  destruct Hwidth as [-> | <-]; [constructor |]. now apply width_le_Forall.
Qed.

Lemma team_returns_exactly_witness :
  team_batting_bref Sample.team_site "NYY" (Some 2019%Z) (Some 2020%Z)
  = (["Getting Batting Data: 2019 NYY"; "Getting Batting Data: 2020 NYY"],
     Return {| columns := [VStr "Pos"; VStr "Name"; VStr "Year"; VStr "Age"; VStr "G"];
               rows := [[VStr "C"; VStr "Gary Sanchez"; VInt 2019; VStr "28"; VStr "111"];
                        [VStr "1B"; VStr "Luke Voit"; VInt 2019; VStr "30"; VStr "150"];
                        [VStr "C"; VStr "Kyle Higashioka"; VInt 2020; VStr "28";
                         VStr "111"];
                        [VStr "1B"; VStr "Mike Ford"; VInt 2020; VStr "30"; VStr "150"]] |}).
Proof.
  refine (team_returns_exactly Sample.team_site "NYY" 2019 (Some 2020%Z)
            (Sample.team_table "Gary Sanchez" "Luke Voit") _ _ _ _ eq_refl _).
  - unfold Pandas.float64_exact. lia.
  - unfold Pandas.float64_exact. simpl. lia.
  - simpl. lia.
  - intros s Hs. simpl in Hs.
    assert (Hcase : s = 2019%Z \/ s = 2020%Z) by lia.
    destruct Hcase as [-> | ->]; discriminate.
  - right. reflexivity.
Defined.

(** X3. The heading set of a returned team table is read from the first
    season's table alone, whatever the later pages hold: it is that table's
    header cells 1 to 27 with ["Year"] inserted, at most 28 columns. *)
Theorem team_headings_from_first_season
        (get_soup : string -> node) (team : string) (a : Z) (e : option Z)
        (out : list string) (df : DataFrame) :
  team_batting_bref get_soup team (Some a) e = (out, Return df) ->
  exists table,
    nth_error (team_tables get_soup (team_url team) a) 0 = Some table
    /\ columns df = PyList.insert 2 (VStr "Year") (team_headings table)
    /\ 1 <= List.length (columns df) <= 28.
Proof.
  intros Hrun. apply team_Return in Hrun.
  destruct Hrun as (H & Hhead & _ & _ & Hcols & _).
  apply team_first_headings_range in Hhead. destruct Hhead as (_ & table & Htab & ->).
  exists table. split; [exact Htab |]. split; [exact Hcols |].
  rewrite Hcols, insert_length. pose proof (team_headings_length table). lia.
Qed.

Lemma team_headings_from_first_season_witness :
  exists table,
    nth_error (team_tables Sample.team_site (team_url "NYY") 2019) 0 = Some table
    /\ [VStr "Pos"; VStr "Name"; VStr "Year"; VStr "Age"; VStr "G"]
       = PyList.insert 2 (VStr "Year") (team_headings table)
    /\ 1 <= 5 <= 28.
Proof.
  exact (team_headings_from_first_season Sample.team_site "NYY" 2019 (Some 2020%Z)
           ["Getting Batting Data: 2019 NYY"; "Getting Batting Data: 2020 NYY"]
           {| columns := [VStr "Pos"; VStr "Name"; VStr "Year"; VStr "Age"; VStr "G"];
              rows := [[VStr "C"; VStr "Gary Sanchez"; VInt 2019; VStr "28"; VStr "111"];
                       [VStr "1B"; VStr "Luke Voit"; VInt 2019; VStr "30"; VStr "150"];
                       [VStr "C"; VStr "Kyle Higashioka"; VInt 2020; VStr "28";
                        VStr "111"];
                       [VStr "1B"; VStr "Mike Ford"; VInt 2020; VStr "30"; VStr "150"]] |}
           eq_refl).
Defined.

(** The call stops at the first season without a table. *)
Lemma team_raise_at get_soup team a e s0 :
  (a <= s0 <= last_season a e)%Z ->
  team_tables get_soup (team_url team) s0 = [] ->
  (forall s', (a <= s' < s0)%Z -> team_tables get_soup (team_url team) s' <> []) ->
  team_batting_bref get_soup team (Some a) e
  = (map (team_line team) (PyList.range a (s0 + 1)),
     Raise (Exc IndexError "list index out of range")).
Proof.
  intros Hs0 Hnone Hfirst.
  unfold team_batting_bref, team_loop. fold (team_url team). fold (last_season a e).
  rewrite (range_split a (last_season a e + 1) s0) by lia.
  rewrite team_for_each_Raise.
  - cbn [bind]. f_equal. rewrite (range_split a (s0 + 1) s0) by lia.
    rewrite (range_empty (s0 + 1) (s0 + 1)) by lia. reflexivity.
  - apply Forall_forall. intros s' Hs'. apply range_In in Hs'.
    rewrite no_table_iff. now apply Hfirst.
  - now apply no_table_iff.
Qed.

Lemma existsb_false {A} (p : A -> bool) l x :
  existsb p l = false -> In x l -> p x = false.
Proof.
  intros H Hin. destruct (p x) eqn:E; [| reflexivity].
  assert (existsb p l = true) by (apply existsb_exists; eauto). congruence.
Qed.

(** X1. The ways [team_batting_bref] fails.  Without a start season it
    raises [ValueError] before printing or fetching anything.  With one, it
    raises [AssertionError] exactly on an empty range, the [IndexError] of
    [[0]] at the first season whose page has no table, and otherwise only
    the [ValueError] of the frame builder, after the last season, when the
    widest gathered row does not have one field more than the first table
    gives headings.  It never raises [AttributeError]. *)
Theorem team_failures
        (get_soup : string -> node) (team : string) (start e : option Z)
        (out : list string) (exn : exception) :
  team_batting_bref get_soup team start e = (out, Raise exn) ->
  exc_type exn <> AttributeError
  /\ ((start = None /\ out = [] /\ exc_type exn = ValueError)
      \/ exists a,
          start = Some a
          /\ (((last_season a e < a)%Z /\ out = [] /\ exn = Exc AssertionError "")
              \/ (exists s0,
                     (a <= s0 <= last_season a e)%Z
                     /\ team_tables get_soup (team_url team) s0 = []
                     /\ (forall s', (a <= s' < s0)%Z ->
                                    team_tables get_soup (team_url team) s' <> [])
                     /\ out = map (team_line team) (PyList.range a (s0 + 1))
                     /\ exn = Exc IndexError "list index out of range")
              \/ ((a <= last_season a e)%Z
                  /\ (forall s, (a <= s <= last_season a e)%Z ->
                                team_tables get_soup (team_url team) s <> [])
                  /\ out = map (team_line team) (PyList.range a (last_season a e + 1))
                  /\ exc_type exn = ValueError
                  /\ exists table,
                      nth_error (team_tables get_soup (team_url team) a) 0 = Some table
                      /\ team_raw get_soup team a (last_season a e) <> []
                      /\ Pandas.width (team_raw get_soup team a (last_season a e))
                         <> S (List.length (team_headings table))))).
Proof.
  intros Hrun.
  assert (Hcases :
    (start = None /\ out = [] /\ exc_type exn = ValueError)
    \/ exists a,
        start = Some a
        /\ (((last_season a e < a)%Z /\ out = [] /\ exn = Exc AssertionError "")
            \/ (exists s0,
                   (a <= s0 <= last_season a e)%Z
                   /\ team_tables get_soup (team_url team) s0 = []
                   /\ (forall s', (a <= s' < s0)%Z ->
                                  team_tables get_soup (team_url team) s' <> [])
                   /\ out = map (team_line team) (PyList.range a (s0 + 1))
                   /\ exn = Exc IndexError "list index out of range")
            \/ ((a <= last_season a e)%Z
                /\ (forall s, (a <= s <= last_season a e)%Z ->
                              team_tables get_soup (team_url team) s <> [])
                /\ out = map (team_line team) (PyList.range a (last_season a e + 1))
                /\ exc_type exn = ValueError
                /\ exists table,
                    nth_error (team_tables get_soup (team_url team) a) 0 = Some table
                    /\ team_raw get_soup team a (last_season a e) <> []
                    /\ Pandas.width (team_raw get_soup team a (last_season a e))
                       <> S (List.length (team_headings table))))).
  { destruct start as [a |].
    2:{ left. cbn in Hrun. inversion Hrun; subst. auto. }
    right. exists a. split; [reflexivity |].
    destruct (Z_lt_dec (last_season a e) a) as [Hlt | Hge].
    { left. unfold team_batting_bref, team_loop in Hrun. fold (last_season a e) in Hrun.
      rewrite range_empty in Hrun by lia. cbn in Hrun. inversion Hrun; subst. auto. }
    right.
    set (p := fun y => match team_tables get_soup (team_url team) y with
                       | [] => true
                       | _ => false
                       end).
    assert (Hp : forall y, p y = true <-> team_tables get_soup (team_url team) y = []).
    { intros y. unfold p. destruct (team_tables get_soup (team_url team) y);
        split; congruence. }
    destruct (existsb p (PyList.range a (last_season a e + 1))) eqn:E.
    - left. apply existsb_exists in E. destruct E as (s & Hs & Hps).
      apply range_In in Hs.
      destruct (first_season p a (last_season a e + 1) s Hs Hps)
        as (s0 & Hs0 & Hp0 & Hfirst).
      assert (Hfirst' : forall s', (a <= s' < s0)%Z ->
                                   team_tables get_soup (team_url team) s' <> []).
      { intros s' Hs' Hnil. apply Hp in Hnil. rewrite (Hfirst s' Hs') in Hnil.
        discriminate. }
      apply Hp in Hp0.
      rewrite (team_raise_at get_soup team a e s0) in Hrun; auto; try lia.
      inversion Hrun; subst. exists s0. repeat split; auto; lia.
    - right.
      assert (Hall : forall s, (a <= s <= last_season a e)%Z ->
                               team_tables get_soup (team_url team) s <> []).
      { intros s Hs Hnil. apply Hp in Hnil.
        rewrite (existsb_false p _ s E) in Hnil; [discriminate |].
        apply range_In. lia. }
      destruct (nth_error (team_tables get_soup (team_url team) a) 0) as [table |] eqn:Htab.
      2:{ apply no_table_iff in Htab. exfalso. apply (Hall a); [lia | exact Htab]. }
      rewrite (team_frame_of_loop _ _ _ _ _ _
                 (team_loop_ok _ _ _ _ _ Hall Htab ltac:(lia))) in Hrun.
      cbn [headings raw_data] in Hrun.
      destruct (Pandas.new _ _) as [o [data | exn']] eqn:Hnew; [discriminate |].
      inversion Hrun; subst. apply new_Raise in Hnew.
      destruct Hnew as (_ & Htype & Hne & Hwidth). rewrite insert_length in Hwidth.
      repeat split; auto; try lia. exists table. auto. }
  split; [| exact Hcases].
  destruct Hcases as [(_ & _ & Ht) | (a & _ & [(_ & _ & ->) | [(s0 & _ & _ & _ & _ & ->)
                                                            | (_ & _ & _ & Ht & _)]])];
    try rewrite Ht; discriminate.
Qed.

Lemma team_failures_witness :
  team_batting_bref Sample.wide_team_site "NYY" (Some 2019%Z) None
  = (["Getting Batting Data: 2019 NYY"],
     Raise (Exc ValueError "3 columns passed, passed data had 5 columns"))
  /\ exc_type (Exc ValueError "3 columns passed, passed data had 5 columns")
     <> AttributeError.
Proof.
  split; [reflexivity |].
  exact (proj1 (team_failures Sample.wide_team_site "NYY" (Some 2019%Z) None
                  ["Getting Batting Data: 2019 NYY"]
                  (Exc ValueError "3 columns passed, passed data had 5 columns")
                  eq_refl)).
Defined.





(** *** season_batting_bref *)

Lemma bind_prefix {A B} (l o : list string) (r : outcome A) (k : A -> M B) :
  bind (l ++ o, r) k = (l ++ fst (bind (o, r) k), snd (bind (o, r) k)).
Proof.
  destruct r as [a | exn]; cbn [bind]; [| reflexivity].
  destruct (k a) as [o' r']. cbn [fst snd]. now rewrite app_assoc.
Qed.

(** A body row is skipped exactly when it is labelled as the league
    average; otherwise it appends the row built from it. *)
Lemma season_row_exact season raw row out raw' :
  season_row season raw row = (out, Return raw') ->
  out = []
  /\ ((is_average row = true /\ raw' = raw)
      \/ (is_average row = false
          /\ exists r, league_row_of season row r /\ raw' = raw ++ [r])).
Proof.
  unfold season_row, is_average.
  destruct (Soup.find "th" [("data-stat", "team_name")] row) as [th |] eqn:Hth;
    [| discriminate].
  cbn [getattr]. rewrite bind_ret_l.
  destruct (String.eqb_spec (Str.strip (Soup.text th)) "League Average") as [Heq | Hne].
  { intros H. inversion H; subst. auto. }
  destruct (Soup.find "a" [] th) as [a_tag |] eqn:Ha; [| discriminate].
  cbn [getattr]. rewrite bind_ret_l.
  destruct (Soup.get "href" a_tag) as [href |] eqn:Hhref; [| discriminate].
  cbn [getattr]. rewrite bind_ret_l. unfold getitem.
  destruct (nth_error (Str.split "/" href) 2) as [team_abbrev |] eqn:Habbrev;
    [| discriminate].
  rewrite bind_ret_l. intros H. inversion H; subst. split; [reflexivity |].
  right. split; [reflexivity |]. eexists. split; [| reflexivity].
  exists th, a_tag, href, team_abbrev. repeat split; auto.
Qed.

Lemma season_rows_exact season rows : forall raw out raw',
  for_each rows (season_row season) raw = (out, Return raw') ->
  out = []
  /\ exists new,
      raw' = raw ++ new
      /\ Forall2 (league_row_of season)
           (filter (fun row => negb (is_average row)) rows) new.
Proof.
  induction rows as [| row rows IH]; intros raw out raw' Hrun; cbn [for_each] in Hrun.
  - inversion Hrun; subst. split; [reflexivity |]. exists [].
    rewrite app_nil_r. split; [reflexivity | constructor].
  - apply bind_Return in Hrun. destruct Hrun as (o1 & raw1 & o2 & H1 & H2 & ->).
    apply season_row_exact in H1. destruct H1 as (-> & H1).
    apply IH in H2. destruct H2 as (-> & new & -> & Hnew).
    split; [reflexivity |]. cbn [filter].
    destruct H1 as [(-> & ->) | (-> & r & Hr & ->)]; cbn [negb].
    + exists new. auto.
    + exists (r :: new). rewrite <- app_assoc. split; [reflexivity |].
      now constructor.
Qed.

Lemma season_step_exact get_soup st season out st' :
  season_step get_soup st season = (out, Return st') ->
  out = league_progress get_soup season
  /\ exists block,
      raw_data st' = raw_data st ++ block
      /\ Forall2 (league_row_of season) (league_kept_rows get_soup season) block.
Proof.
  intros Hrun. unfold league_progress, league_kept_rows, league_body_rows.
  destruct (league_table get_soup season) as [table |] eqn:Htab.
  2:{ rewrite season_step_missing in Hrun by assumption.
      inversion Hrun; subst. split; [reflexivity |]. exists [].
      rewrite app_nil_r. split; [reflexivity | constructor]. }
  unfold season_step in Hrun. fold (league_url season) in Hrun.
  fold (league_table get_soup season) in Hrun. rewrite Htab in Hrun.
  apply bind_Return in Hrun. destruct Hrun as (o0 & [] & om & Hprint & Hm & ->).
  inversion Hprint; subst o0; clear Hprint.
  apply bind_Return in Hm. destruct Hm as (o1 & hs & o2 & Hheads & Hm & ->).
  assert (o1 = []).
  { destruct (headings st); [now inversion Hheads |].
    destruct (Soup.find "thead" [] table); [| discriminate].
    cbn [getattr] in Hheads. rewrite bind_ret_l in Hheads. now inversion Hheads. }
  subst o1.
  apply bind_Return in Hm. destruct Hm as (o3 & tbody & o4 & Htbody & Hm & ->).
  destruct (Soup.find "tbody" [] table) as [tb |] eqn:Htb; [| discriminate].
  cbn [getattr] in Htbody. inversion Htbody; subst o3 tbody; clear Htbody.
  apply bind_Return in Hm. destruct Hm as (o5 & raw' & o6 & Hrows & Hret & ->).
  inversion Hret; subst; clear Hret.
  apply season_rows_exact in Hrows. destruct Hrows as (-> & new & -> & Hnew).
  split; [reflexivity |]. exists new. split; [reflexivity | exact Hnew].
Qed.

Lemma season_for_each_exact get_soup seasons : forall st out st',
  for_each seasons (season_step get_soup) st = (out, Return st') ->
  out = List.concat (map (league_progress get_soup) seasons)
  /\ exists blocks,
      raw_data st' = raw_data st ++ List.concat blocks
      /\ Forall2 (fun s block =>
                    Forall2 (league_row_of s) (league_kept_rows get_soup s) block)
           seasons blocks.
Proof.
  induction seasons as [| s seasons IH]; intros st out st' Hrun; cbn [for_each] in Hrun.
  - inversion Hrun; subst. split; [reflexivity |]. exists [].
    cbn. rewrite app_nil_r. split; [reflexivity | constructor].
  - apply bind_Return in Hrun. destruct Hrun as (o1 & st1 & o2 & H1 & H2 & ->).
    apply season_step_exact in H1. destruct H1 as (-> & block & Hraw1 & Hblock).
    apply IH in H2. destruct H2 as (-> & blocks & Hraw & HF).
    split; [reflexivity |]. exists (block :: blocks). split.
    + cbn [List.concat]. now rewrite Hraw, Hraw1, app_assoc.
    + now constructor.
Qed.

Lemma season_call_exact get_soup a e out df :
  season_batting_bref get_soup (Some a) e = (out, Return df) ->
  out = List.concat (map (league_progress get_soup)
                       (PyList.range a (last_season a e + 1)))
  /\ exists blocks,
      Forall2 (fun s block =>
                 Forall2 (league_row_of s) (league_kept_rows get_soup s) block)
        (PyList.range a (last_season a e + 1)) blocks
      /\ rows df = map (Pandas.pad (List.length (columns df))) (List.concat blocks).
Proof.
  intros Hrun.
  destruct (season_loop_of_frame _ _ _ _ _ Hrun) as (st & H & Hloop & _ & _ & Hrows & _).
  unfold season_loop in Hloop. apply season_for_each_exact in Hloop.
  destruct Hloop as (-> & blocks & Hraw & HF). cbn [raw_data app] in Hraw.
  split; [reflexivity |]. exists blocks. split; [exact HF |]. now rewrite Hrows, Hraw.
Qed.

Lemma blocks_length {A B} (R : Z -> A -> B -> Prop) (f : Z -> list A) seasons
      (blocks : list (list B)) :
  Forall2 (fun s block => Forall2 (R s) (f s) block) seasons blocks ->
  List.length (List.concat blocks)
  = list_sum (map (fun s => List.length (f s)) seasons).
Proof.
  induction 1 as [| s block seasons blocks Hb HF IH]; [reflexivity |].
  cbn [List.concat map list_sum fold_right]. rewrite length_app.
  apply Forall2_length in Hb. unfold list_sum in IH. lia.
Qed.

(** X5. What a returned league call has printed: for every season of the
    range, in order, the progress line, followed by the
    [Table not found] notice exactly when that season's page has no table. *)
Theorem season_printed_lines
        (get_soup : string -> node) (a : Z) (e : option Z)
        (out : list string) (df : DataFrame) :
  season_batting_bref get_soup (Some a) e = (out, Return df) ->
  out = List.concat (map (league_progress get_soup)
                       (PyList.range a (last_season a e + 1))).
Proof. intros Hrun. now apply season_call_exact in Hrun. Qed.

Lemma season_printed_lines_witness :
  ["Getting per-team batting data: 2019"; "Table not found for 2019";
   "Getting per-team batting data: 2020";
   "Getting per-team batting data: 2021"; "Table not found for 2021"]
  = List.concat (map (league_progress Sample.league_site) (PyList.range 2019 (2021 + 1))).
Proof.
  exact (season_printed_lines Sample.league_site 2019 (Some 2021%Z)
           ["Getting per-team batting data: 2019"; "Table not found for 2019";
            "Getting per-team batting data: 2020";
            "Getting per-team batting data: 2021"; "Table not found for 2021"]
           {| columns := [VStr "season"; VStr "team_abbrev"; VStr "team_name";
                          VStr "G"; VStr "R"];
              rows := [[VInt 2020; VStr "ARI"; VStr "Arizona Diamondbacks";
                        VStr "60"; VStr "269"];
                       [VInt 2020; VStr "NYY"; VStr "New York Yankees";
                        VStr "60"; VStr "315"]] |}
           eq_refl).
Defined.

(** X6. A returned league table has one row for every body row that is
    not labelled "League Average", season by season and in page order:
    nothing else is skipped and [data.dropna()], whose result is discarded,
    removes nothing.  Each row is the row built from its body row, padded
    with missing values up to the number of headings. *)
Theorem season_rows_exactly
        (get_soup : string -> node) (a : Z) (e : option Z)
        (out : list string) (df : DataFrame) :
  season_batting_bref get_soup (Some a) e = (out, Return df) ->
  (exists blocks,
      Forall2 (fun s block =>
                 Forall2 (league_row_of s) (league_kept_rows get_soup s) block)
        (PyList.range a (last_season a e + 1)) blocks
      /\ rows df = map (Pandas.pad (List.length (columns df))) (List.concat blocks))
  /\ List.length (rows df)
     = list_sum (map (fun s => List.length (league_kept_rows get_soup s))
                   (PyList.range a (last_season a e + 1))).
Proof.
  intros Hrun. apply season_call_exact in Hrun.
  destruct Hrun as (_ & blocks & HF & Hrows). split; [eauto |].
  rewrite Hrows, length_map. now apply (blocks_length league_row_of).
Qed.

Lemma season_rows_exactly_witness :
  List.length (league_body_rows Sample.league_site 2020) = 3
  /\ 2 = list_sum (map (fun s => List.length (league_kept_rows Sample.league_site s))
                     (PyList.range 2019 (2021 + 1))).
Proof.
  split; [reflexivity |].
  exact (proj2 (season_rows_exactly Sample.league_site 2019 (Some 2021%Z)
                  ["Getting per-team batting data: 2019"; "Table not found for 2019";
                   "Getting per-team batting data: 2020";
                   "Getting per-team batting data: 2021"; "Table not found for 2021"]
                  {| columns := [VStr "season"; VStr "team_abbrev"; VStr "team_name";
                                 VStr "G"; VStr "R"];
                     rows := [[VInt 2020; VStr "ARI"; VStr "Arizona Diamondbacks";
                               VStr "60"; VStr "269"];
                              [VInt 2020; VStr "NYY"; VStr "New York Yankees";
                               VStr "60"; VStr "315"]] |}
                  eq_refl)).
Defined.

Lemma season_call_is_bind get_soup a e :
  season_batting_bref get_soup (Some a) e
  = bind (season_loop get_soup a (last_season a e))
      (fun st =>
         headings <- assert_not_none (headings st) ;;
         data <- Pandas.new (raw_data st)
                   ([VStr "season"; VStr "team_abbrev"; VStr "team_name"]
                      ++ PyList.slice_from 1 headings) ;;
         ret data).
Proof. reflexivity. Qed.

(** X7. Seasons without a table are transparent.  A first season without
    the table only adds its two lines in front of what the call for the
    rest of the range prints, and changes nothing else, whether that call
    returns or raises.  A last season without the table only adds its two
    lines after those of a returning call for the range before it. *)
Theorem season_missing_is_transparent
        (get_soup : string -> node) (a e : Z) :
  (league_table get_soup a = None -> (a <= e)%Z ->
   season_batting_bref get_soup (Some a) (Some e)
   = (league_lines a ++ fst (season_batting_bref get_soup (Some (a + 1)%Z) (Some e)),
      snd (season_batting_bref get_soup (Some (a + 1)%Z) (Some e))))
  /\ (forall out df,
        league_table get_soup e = None ->
        season_batting_bref get_soup (Some a) (Some (e - 1)%Z) = (out, Return df) ->
        season_batting_bref get_soup (Some a) (Some e)
        = (out ++ league_lines e, Return df)).
Proof.
  split.
  - intros Hnone Hle. rewrite !season_call_is_bind. cbn [last_season].
    unfold season_loop at 1. rewrite (range_cons a) by lia. cbn [for_each].
    rewrite season_step_missing by assumption. rewrite bind_Return_eq.
    fold (season_loop get_soup (a + 1) e).
    destruct (season_loop get_soup (a + 1) e) as [o r]. cbn [fst snd].
    apply bind_prefix.
  - intros out df Hnone Hrun.
    destruct (season_loop_of_frame _ _ _ _ _ Hrun) as (st & H & Hloop & _).
    cbn [last_season] in Hloop.
    assert (Hrange : (a <= e)%Z).
    { destruct (Z_le_gt_dec a e) as [Hle | Hgt]; [exact Hle |].
      unfold season_batting_bref, season_loop in Hrun.
      rewrite range_empty in Hrun by lia. discriminate. }
    assert (Hloop' : season_loop get_soup a e = (out ++ league_lines e, Return st)).
    { unfold season_loop in *. replace (e - 1 + 1)%Z with e in Hloop by lia.
      rewrite (range_app a e (e + 1)) by lia. rewrite for_each_app, Hloop.
      rewrite bind_Return_eq. rewrite (range_cons e), (range_empty (e + 1)) by lia.
      cbn [for_each]. rewrite season_step_missing by assumption.
      rewrite bind_Return_eq. cbn [fst snd ret]. now rewrite app_nil_r. }
    rewrite (season_frame_of_loop get_soup a (Some e) _ _ Hloop').
    rewrite (season_frame_of_loop get_soup a (Some (e - 1)%Z) _ _ Hloop) in Hrun.
    destruct (headings st); [| discriminate].
    destruct (Pandas.new _ _) as [o [data | exn]]; [| discriminate].
    inversion Hrun; subst. reflexivity.
Qed.

Lemma season_missing_is_transparent_witness :
  season_batting_bref Sample.league_site (Some 2019%Z) (Some 2020%Z)
  = (league_lines 2019
       ++ fst (season_batting_bref Sample.league_site (Some (2019 + 1)%Z) (Some 2020%Z)),
     snd (season_batting_bref Sample.league_site (Some (2019 + 1)%Z) (Some 2020%Z)))
  /\ season_batting_bref Sample.league_site (Some 2020%Z) (Some 2021%Z)
     = (["Getting per-team batting data: 2020"] ++ league_lines 2021,
        Return {| columns := [VStr "season"; VStr "team_abbrev"; VStr "team_name";
                              VStr "G"; VStr "R"];
                  rows := [[VInt 2020; VStr "ARI"; VStr "Arizona Diamondbacks";
                            VStr "60"; VStr "269"];
                           [VInt 2020; VStr "NYY"; VStr "New York Yankees";
                            VStr "60"; VStr "315"]] |}).
Proof.
  split.
  - refine (proj1 (season_missing_is_transparent Sample.league_site 2019 2020) eq_refl _).
    lia.
  - exact (proj2 (season_missing_is_transparent Sample.league_site 2020 2021)
             ["Getting per-team batting data: 2020"]
             {| columns := [VStr "season"; VStr "team_abbrev"; VStr "team_name";
                            VStr "G"; VStr "R"];
                rows := [[VInt 2020; VStr "ARI"; VStr "Arizona Diamondbacks";
                          VStr "60"; VStr "269"];
                         [VInt 2020; VStr "NYY"; VStr "New York Yankees";
                          VStr "60"; VStr "315"]] |}
             eq_refl eq_refl).
Defined.

Lemma league_first_headings_range get_soup a b H :
  league_first_headings get_soup (PyList.range a b) = Some H ->
  exists s0 table thead,
    (a <= s0 < b)%Z
    /\ (forall s', (a <= s' < s0)%Z -> league_table get_soup s' = None)
    /\ league_table get_soup s0 = Some table
    /\ Soup.find "thead" [] table = Some thead
    /\ H = league_headings thead.
Proof.
  remember (Z.to_nat (b - a)) as n eqn:Hn. revert a Hn.
  induction n as [| n IH]; intros a Hn HH.
  - rewrite range_empty in HH by lia. discriminate.
  - rewrite range_cons in HH by lia. cbn [league_first_headings] in HH.
    destruct (league_table get_soup a) as [table |] eqn:Htab.
    + destruct (Soup.find "thead" [] table) as [thead |] eqn:Hthead;
        cbn [option_map] in HH; [| discriminate].
      inversion HH. exists a, table, thead.
      split; [lia |]. split; [intros s' Hs'; lia |]. auto.
    + destruct (IH (a + 1)%Z ltac:(lia) HH)
        as (s0 & table & thead & Hs0 & Hfirst & Ht & Hth & ->).
      exists s0, table, thead. split; [lia |]. split; [| auto].
      intros s' Hs'. destruct (Z.eq_dec s' a) as [-> | Hne]; [exact Htab |].
      apply Hfirst. lia.
Qed.

(** X8. The heading set of a returned league table comes from the first
    season of the range whose page has the table, and from no other: it is
    [season], [team_abbrev], [team_name] followed by the [data-stat] names of
    that table's header cells without the first. *)
Theorem season_headings_from_first_table
        (get_soup : string -> node) (a : Z) (e : option Z)
        (out : list string) (df : DataFrame) :
  season_batting_bref get_soup (Some a) e = (out, Return df) ->
  exists s0 table thead,
    (a <= s0 <= last_season a e)%Z
    /\ (forall s', (a <= s' < s0)%Z -> league_table get_soup s' = None)
    /\ league_table get_soup s0 = Some table
    /\ Soup.find "thead" [] table = Some thead
    /\ columns df
       = [VStr "season"; VStr "team_abbrev"; VStr "team_name"]
           ++ PyList.slice_from 1 (league_headings thead)
    /\ 3 <= List.length (columns df).
Proof.
  intros Hrun. apply season_Return in Hrun.
  destruct Hrun as (H & blocks & HH & Hcols & _).
  apply league_first_headings_range in HH.
  destruct HH as (s0 & table & thead & Hs0 & Hfirst & Htab & Hthead & ->).
  exists s0, table, thead. repeat split; auto; try lia.
  rewrite Hcols, length_app. simpl. lia.
Qed.

Lemma season_headings_from_first_table_witness :
  exists s0 table thead,
    (2019 <= s0 <= last_season 2019 (Some 2021%Z))%Z
    /\ (forall s', (2019 <= s' < s0)%Z -> league_table Sample.league_site s' = None)
    /\ league_table Sample.league_site s0 = Some table
    /\ Soup.find "thead" [] table = Some thead
    /\ [VStr "season"; VStr "team_abbrev"; VStr "team_name"; VStr "G"; VStr "R"]
       = [VStr "season"; VStr "team_abbrev"; VStr "team_name"]
           ++ PyList.slice_from 1 (league_headings thead)
    /\ 3 <= 5.
Proof.
  exact (season_headings_from_first_table Sample.league_site 2019 (Some 2021%Z)
           ["Getting per-team batting data: 2019"; "Table not found for 2019";
            "Getting per-team batting data: 2020";
            "Getting per-team batting data: 2021"; "Table not found for 2021"]
           {| columns := [VStr "season"; VStr "team_abbrev"; VStr "team_name";
                          VStr "G"; VStr "R"];
              rows := [[VInt 2020; VStr "ARI"; VStr "Arizona Diamondbacks";
                        VStr "60"; VStr "269"];
                       [VInt 2020; VStr "NYY"; VStr "New York Yankees";
                        VStr "60"; VStr "315"]] |}
           eq_refl).
Defined.

Lemma for_each_Raise_inv {S X} (body : S -> X -> M S) xs : forall st out exn,
  for_each xs body st = (out, Raise exn) ->
  exists st1 x o, In x xs /\ body st1 x = (o, Raise exn).
Proof.
  induction xs as [| x xs IH]; intros st out exn Hrun; cbn [for_each] in Hrun.
  - discriminate.
  - apply bind_Raise in Hrun. destruct Hrun as [H | (o1 & st1 & o2 & _ & H & _)].
    + exists st, x, out. split; [now left | exact H].
    + destruct (IH _ _ _ H) as (st2 & y & o & Hy & Hbody).
      exists st2, y, o. split; [now right | exact Hbody].
Qed.

Lemma season_row_Raise season raw row out exn :
  season_row season raw row = (out, Raise exn) -> league_row_exn exn.
Proof.
  unfold season_row, league_row_exn.
  destruct (Soup.find "th" [("data-stat", "team_name")] row) as [th |].
  2:{ intros H. inversion H. auto. }
  cbn [getattr]. rewrite bind_ret_l.
  destruct (String.eqb (Str.strip (Soup.text th)) "League Average"); [discriminate |].
  destruct (Soup.find "a" [] th) as [a_tag |].
  2:{ intros H. inversion H. auto. }
  cbn [getattr]. rewrite bind_ret_l.
  destruct (Soup.get "href" a_tag) as [href |].
  2:{ intros H. inversion H. auto. }
  cbn [getattr]. rewrite bind_ret_l. unfold getitem.
  destruct (nth_error (Str.split "/" href) 2) as [team_abbrev |].
  - rewrite bind_ret_l. discriminate.
  - intros H. inversion H. auto.
Qed.

Lemma season_step_Raise get_soup st season out exn :
  season_step get_soup st season = (out, Raise exn) ->
  exists table,
    league_table get_soup season = Some table
    /\ (league_table_exn exn \/ league_row_exn exn).
Proof.
  intros Hrun. destruct (league_table get_soup season) as [table |] eqn:Htab.
  2:{ rewrite season_step_missing in Hrun by assumption. discriminate. }
  exists table. split; [reflexivity |].
  unfold season_step in Hrun. fold (league_url season) in Hrun.
  fold (league_table get_soup season) in Hrun. rewrite Htab in Hrun.
  apply bind_Raise in Hrun. destruct Hrun as [H | (o0 & [] & om & _ & Hm & _)];
    [discriminate |].
  apply bind_Raise in Hm. destruct Hm as [Hheads | (o1 & hs & o2 & _ & Hm & _)].
  { left. destruct (headings st); [discriminate |].
    destruct (Soup.find "thead" [] table); cbn [getattr] in Hheads.
    - rewrite bind_ret_l in Hheads. discriminate.
    - inversion Hheads. reflexivity. }
  apply bind_Raise in Hm. destruct Hm as [Htbody | (o3 & tbody & o4 & _ & Hm & _)].
  { left. destruct (Soup.find "tbody" [] table); [discriminate |].
    inversion Htbody. reflexivity. }
  apply bind_Raise in Hm. destruct Hm as [Hrows | (o5 & raw' & o6 & _ & Hret & _)];
    [| discriminate].
  right. apply for_each_Raise_inv in Hrows. destruct Hrows as (raw1 & row & o & _ & Hrow).
  now apply season_row_Raise in Hrow.
Qed.

(** A loop that ends without headings met no table at all. *)
Lemma season_loop_no_headings get_soup seasons : forall st out st',
  for_each seasons (season_step get_soup) st = (out, Return st') ->
  headings st' = None ->
  Forall (fun s => league_table get_soup s = None) seasons.
Proof.
  induction seasons as [| s seasons IH]; intros st out st' Hrun Hnone; [constructor |].
  cbn [for_each] in Hrun. apply bind_Return in Hrun.
  destruct Hrun as (o1 & st1 & o2 & H1 & H2 & _).
  pose proof (season_for_each_Return _ _ _ _ _ H2) as (_ & _ & _ & Hhead).
  constructor; [| now apply (IH _ _ _ H2)].
  apply season_step_Return in H1.
  destruct H1 as [(Htab & _) | (table & new & _ & _ & _ & _ & Hsome)]; [exact Htab |].
  rewrite Hnone in Hhead. destruct (headings st1); [discriminate | congruence].
Qed.

(** X9. The ways [season_batting_bref] fails.  Without a start season it
    raises [ValueError] before printing or fetching anything.  With one, it
    raises [AssertionError] only when no season of the range has the table
    (having printed the two lines of every season); the [AttributeError] of
    a missing [thead] or [tbody], the [AttributeError] of a body row
    without label cell, link or link target, and the [IndexError] of a link
    target with fewer than three pieces, each at a season whose page has the
    table; and otherwise only the [ValueError] of the frame builder, after
    the last season. *)
Theorem season_failures
        (get_soup : string -> node) (start e : option Z)
        (out : list string) (exn : exception) :
  season_batting_bref get_soup start e = (out, Raise exn) ->
  (start = None /\ out = [] /\ exc_type exn = ValueError)
  \/ exists a,
      start = Some a
      /\ ((exn = Exc AssertionError ""
           /\ (forall s, (a <= s <= last_season a e)%Z -> league_table get_soup s = None)
           /\ out = List.concat (map league_lines
                                   (PyList.range a (last_season a e + 1))))
          \/ (exists s table,
                 (a <= s <= last_season a e)%Z
                 /\ league_table get_soup s = Some table
                 /\ (league_table_exn exn \/ league_row_exn exn))
          \/ (exc_type exn = ValueError
              /\ out = List.concat (map (league_progress get_soup)
                                      (PyList.range a (last_season a e + 1)))
              /\ exists s table,
                  (a <= s <= last_season a e)%Z
                  /\ league_table get_soup s = Some table)).
Proof.
  intros Hrun. destruct start as [a |].
  2:{ left. cbn in Hrun. inversion Hrun; subst. auto. }
  right. exists a. split; [reflexivity |].
  rewrite season_call_is_bind in Hrun. apply bind_Raise in Hrun.
  destruct Hrun as [Hloop | (o1 & st & o2 & Hloop & Hk & ->)].
  - right. left. unfold season_loop in Hloop. apply for_each_Raise_inv in Hloop.
    destruct Hloop as (st1 & s & o & Hs & Hstep). apply range_In in Hs.
    apply season_step_Raise in Hstep. destruct Hstep as (table & Htab & Hexn).
    exists s, table. split; [lia | auto].
  - unfold season_loop in Hloop. destruct (headings st) as [H |] eqn:HH.
    + right. right. cbn [assert_not_none] in Hk. rewrite bind_ret_l in Hk.
      apply bind_Raise in Hk. destruct Hk as [Hnew | (? & ? & ? & _ & Hret & _)];
        [| discriminate].
      apply new_Raise in Hnew. destruct Hnew as (-> & Htype & _).
      pose proof (season_for_each_exact _ _ _ _ _ Hloop) as (-> & _).
      pose proof (season_for_each_Return _ _ _ _ _ Hloop) as (_ & _ & _ & Hhead).
      cbn [headings] in Hhead. rewrite HH in Hhead. symmetry in Hhead.
      apply league_first_headings_range in Hhead.
      destruct Hhead as (s0 & table & _ & Hs0 & _ & Htab & _).
      split; [exact Htype |]. split; [now rewrite app_nil_r |].
      exists s0, table. split; [lia | exact Htab].
    + left. cbn in Hk. inversion Hk; subst o2 exn.
      pose proof (season_loop_no_headings _ _ _ _ _ Hloop HH) as Hall.
      rewrite season_for_each_missing in Hloop by assumption.
      inversion Hloop; subst. split; [reflexivity |]. split; [| now rewrite app_nil_r].
      intros s Hs. rewrite Forall_forall in Hall. apply Hall, range_In. lia.
Qed.

Lemma season_failures_witness :
  season_batting_bref Sample.wide_league_site (Some 2020%Z) None
  = (["Getting per-team batting data: 2020"],
     Raise (Exc ValueError "5 columns passed, passed data had 6 columns"))
  /\ ((Some 2020%Z = None /\ ["Getting per-team batting data: 2020"] = []
       /\ exc_type (Exc ValueError "5 columns passed, passed data had 6 columns")
          = ValueError)
      \/ exists a,
          Some 2020%Z = Some a
          /\ ((Exc ValueError "5 columns passed, passed data had 6 columns"
               = Exc AssertionError ""
               /\ (forall s, (a <= s <= last_season a None)%Z ->
                             league_table Sample.wide_league_site s = None)
               /\ ["Getting per-team batting data: 2020"]
                  = List.concat (map league_lines
                                   (PyList.range a (last_season a None + 1))))
              \/ (exists s table,
                     (a <= s <= last_season a None)%Z
                     /\ league_table Sample.wide_league_site s = Some table
                     /\ (league_table_exn
                           (Exc ValueError "5 columns passed, passed data had 6 columns")
                         \/ league_row_exn
                              (Exc ValueError
                                 "5 columns passed, passed data had 6 columns")))
              \/ (exc_type (Exc ValueError "5 columns passed, passed data had 6 columns")
                  = ValueError
                  /\ ["Getting per-team batting data: 2020"]
                     = List.concat (map (league_progress Sample.wide_league_site)
                                      (PyList.range a (last_season a None + 1)))
                  /\ exists s table,
                      (a <= s <= last_season a None)%Z
                      /\ league_table Sample.wide_league_site s = Some table))).
Proof.
  split; [reflexivity |].
  exact (season_failures Sample.wide_league_site (Some 2020%Z) None
           ["Getting per-team batting data: 2020"]
           (Exc ValueError "5 columns passed, passed data had 6 columns") eq_refl).
Defined.

Lemma Forall2_In_l {A B} (R : A -> B -> Prop) l1 l2 x :
  Forall2 R l1 l2 -> In x l1 -> exists y, In y l2 /\ R x y.
Proof.
  induction 1 as [| a b l1 l2 Hab HF IH]; intros Hin; [destruct Hin |].
  destruct Hin as [-> | Hin].
  - exists b. split; [now left | exact Hab].
  - destruct (IH Hin) as (y & Hy & HR). exists y. split; [now right | exact HR].
Qed.

(** X10. A league call returns only if every body row of every season in
    the range is well formed: apart from the rows labelled
    "League Average", each has the label cell, a link in it, a link target
    and at least three pieces in the target split at ['/'].  One row that
    lacks any of these, in any season, costs the whole result. *)
Theorem season_return_needs_links
        (get_soup : string -> node) (a : Z) (e : option Z)
        (out : list string) (df : DataFrame) (s : Z) (row : node) :
  season_batting_bref get_soup (Some a) e = (out, Return df) ->
  (a <= s <= last_season a e)%Z ->
  In row (league_body_rows get_soup s) ->
  is_average row = true
  \/ exists th a_tag href team_abbrev,
      Soup.find "th" [("data-stat", "team_name")] row = Some th
      /\ Soup.find "a" [] th = Some a_tag
      /\ Soup.get "href" a_tag = Some href
      /\ nth_error (Str.split "/" href) 2 = Some team_abbrev.
Proof.
  intros Hrun Hs Hrow. destruct (is_average row) eqn:Havg; [now left |]. right.
  apply season_call_exact in Hrun. destruct Hrun as (_ & blocks & HF & _).
  assert (Hin : In s (PyList.range a (last_season a e + 1))) by (apply range_In; lia).
  destruct (Forall2_In_l _ _ _ _ HF Hin) as (block & _ & Hblock).
  assert (Hkept : In row (league_kept_rows get_soup s)).
  { unfold league_kept_rows. apply filter_In. split; [exact Hrow |]. now rewrite Havg. }
  destruct (Forall2_In_l _ _ _ _ Hblock Hkept)
    as (r & _ & th & a_tag & href & ab & Hth & _ & Ha & Hhref & Hab & _).
  exists th, a_tag, href, ab. auto.
Qed.

Lemma season_return_needs_links_witness :
  is_average (Sample.club "NYY" "New York Yankees" "60" "315") = true
  \/ exists th a_tag href team_abbrev,
      Soup.find "th" [("data-stat", "team_name")]
        (Sample.club "NYY" "New York Yankees" "60" "315") = Some th
      /\ Soup.find "a" [] th = Some a_tag
      /\ Soup.get "href" a_tag = Some href
      /\ nth_error (Str.split "/" href) 2 = Some team_abbrev.
Proof.
  refine (season_return_needs_links Sample.league_site 2020 None
            ["Getting per-team batting data: 2020"]
            {| columns := [VStr "season"; VStr "team_abbrev"; VStr "team_name";
                           VStr "G"; VStr "R"];
               rows := [[VInt 2020; VStr "ARI"; VStr "Arizona Diamondbacks";
                         VStr "60"; VStr "269"];
                        [VInt 2020; VStr "NYY"; VStr "New York Yankees";
                         VStr "60"; VStr "315"]] |}
            2020 (Sample.club "NYY" "New York Yankees" "60" "315") eq_refl _ _).
  - simpl. lia.
  - right. left. reflexivity.
Defined.




